(** * Task explorer extension: activation, event wiring and cache invalidation

    A shallow embedding of [src/extension.ts].  The module is glue between the
    editor host and the task discovery code: it registers watchers, listeners
    and providers when the extension is activated, and its callbacks
    invalidate caches and refresh the tree view when the host reports a
    change.

    The host is modelled as explicit state: what it provides to the extension
    (workspace folders, the settings store, the files on disk), what the
    extension has registered with it (watchers, listeners, providers), and the
    module level variables of the extension.  Calls that leave the module may
    throw; the code runs in a state and error monad over that world. *)

From stdpp Require Import base option list gmap strings fin_maps.

Local Open Scope string_scope.
Local Open Scope list_scope.

(** ** Data *)

(** A task as the discovery layer describes it. *)
Inductive TaskKind := ant | npm | vscode_task.

Record Task := mkTask {
  task_kind : TaskKind;
  task_name : string;
  task_file : string;
  task_invocation : string;
  task_location : (nat * nat) * (nat * nat)
}.

Global Instance TaskKind_eq_dec : EqDecision TaskKind.
Proof. solve_decision. Defined.

(** Values of the host's settings store. *)
Inductive CfgVal :=
  | CBool (b : bool)
  | CString (s : string)
  | CStrings (l : list string).

Global Instance CfgVal_eq_dec : EqDecision CfgVal.
Proof. solve_decision. Defined.

(** What [if (workspace.workspaceFolders)] tests: the property is an array
    or undefined, and every array, the empty one too, passes the test. *)
Definition defined {A} (o : option A) : bool :=
  match o with
  | Some _ => true
  | None => false
  end.

(** What [if (v)] tests in the source, for a setting that may be unset. *)
Definition truthy (v : option CfgVal) : bool :=
  match v with
  | None => false
  | Some (CBool b) => b
  | Some (CString s) => negb (String.eqb s "")
  | Some (CStrings _) => true
  end.

(** A thrown value. *)
Definition Error := string.

Inductive Result (A : Type) :=
  | Ok (a : A)
  | Throw (e : Error).
Arguments Ok {A} a.
Arguments Throw {A} e.

Record TextDocument := mkTextDocument {
  doc_uri : string;
  doc_languageId : string;
  doc_scheme : string
}.

(** The argument of a configuration listener: the host tells which settings
    a change affects. *)
Record ConfigurationChangeEvent := mkConfigurationChangeEvent {
  affectsConfiguration : string -> bool
}.

(** A document filter; a field left out stands for any value. *)
Record DocumentSelector := mkDocumentSelector {
  sel_language : option string;
  sel_scheme : option string;
  sel_pattern : option string
}.

(** The section view returned by [workspace.getConfiguration(section)]. *)
Record WorkspaceConfiguration := mkWorkspaceConfiguration {
  wc_section : string;
  wc_store : gmap string CfgVal
}.

(** The function values this module hands to the host.  Each constructor is
    one closure (or imported function) of [extension.ts]. *)
Inductive Callback :=
  | CbShowOutput              (* () => logOutputChannel.show() *)
  | CbConfigurationChanged    (* the listener of onDidChangeConfiguration *)
  | CbTextDocumentChanged     (* the listener of onDidChangeTextDocument *)
  | CbRunSelectedScript       (* runSelectedScript, imported from ./commands *)
  | CbInvalidateScriptCaches. (* (_e) => invalidateScriptCaches() *)

Global Instance Callback_eq_dec : EqDecision Callback.
Proof. solve_decision. Defined.

Inductive FsEventKind := FsCreate | FsChange | FsDelete.

Global Instance FsEventKind_eq_dec : EqDecision FsEventKind.
Proof. solve_decision. Defined.

(** Where a callback is subscribed. *)
Inductive Source :=
  | SrcWatcher (watcher : nat) (k : FsEventKind)
  | SrcWorkspaceFolders
  | SrcConfiguration
  | SrcTextDocument
  | SrcCommand (name : string).

Global Instance Source_eq_dec : EqDecision Source.
Proof. solve_decision. Defined.

(** What a listener receives. *)
Inductive Payload :=
  | PNone
  | PUri (path : string)
  | PFolders
  | PConfig (e : ConfigurationChangeEvent)
  | PDocument (d : TextDocument).

(** Objects built by the constructors of the other modules. *)
Inductive AntTaskProvider := NewAntTaskProvider.
Inductive TaskTreeDataProvider := NewTaskTreeDataProvider.
Inductive NpmScriptHoverProvider := NewNpmScriptHoverProvider.

(** Providers and views registered with the host. *)
Inductive Registration :=
  | RegTaskProvider (type : string) (p : AntTaskProvider)
  | RegTreeView (id : string) (p : TaskTreeDataProvider) (showCollapseAll : bool)
  | RegHoverProvider (sel : DocumentSelector) (p : NpmScriptHoverProvider)
  | RegJSONProviders.

(** Handles the host returns, as kept in [context.subscriptions]. *)
Inductive Disposable :=
  | DispAll                      (* disposes of the local [disposables] array *)
  | DispChannel (name : string)
  | DispWatcher (watcher : nat)
  | DispListener (src : Source)
  | DispCommand (name : string)
  | DispTaskProvider (type : string)
  | DispTreeView (id : string)
  | DispHoverProvider (sel : DocumentSelector)
  | DispJSONProviders.

(** What the run leaves for an observer to see. *)
Inductive Effect :=
  | FxReadSetting (key : string)
  | FxHttpConfigure (proxy strictSSL : CfgVal)
  | FxShowChannel (name : string)
  | FxRefreshTree
  | FxParse (scope : string)
  | FxLog (msg : string)
  | FxConsoleError (e : Error).

Global Instance Effect_eq_dec : EqDecision Effect.
Proof. solve_decision. Defined.

(** ** The world *)

Record World := mkWorld {
  (* provided by the host *)
  workspaceFolders : option (list string);
  settings : gmap string CfgVal;
  files : gmap string string;
  (* the call out of this module that throws, if any, counted from the
     next one, with the value it throws *)
  fault : option (nat * Error);
  (* registered with the host *)
  watchers : list string;
  listeners : list (Source * Callback);
  registrations : list Registration;
  (* the extension context and the local array of [activate] *)
  subscriptions : list Disposable;
  disposables : list Disposable;
  (* module level variables, here and in the modules this one calls *)
  treeDataProvider : option TaskTreeDataProvider;
  logOutputChannel : option string;
  httpConfig : option (CfgVal * CfgVal);
  tasksCache : gmap string (list Task);
  hoverCache : gmap string (list Task);
  (* observable effects, oldest first *)
  trace : list Effect
}.

(** Field updates. *)

Definition set_workspaceFolders v (w : World) : World :=
  mkWorld v (settings w) (files w) (fault w) (watchers w) (listeners w)
    (registrations w) (subscriptions w) (disposables w) (treeDataProvider w)
    (logOutputChannel w) (httpConfig w) (tasksCache w) (hoverCache w)
    (trace w).

Definition set_settings v (w : World) : World :=
  mkWorld (workspaceFolders w) v (files w) (fault w) (watchers w)
    (listeners w) (registrations w) (subscriptions w) (disposables w)
    (treeDataProvider w) (logOutputChannel w) (httpConfig w) (tasksCache w)
    (hoverCache w) (trace w).

Definition set_files v (w : World) : World :=
  mkWorld (workspaceFolders w) (settings w) v (fault w) (watchers w)
    (listeners w) (registrations w) (subscriptions w) (disposables w)
    (treeDataProvider w) (logOutputChannel w) (httpConfig w) (tasksCache w)
    (hoverCache w) (trace w).

Definition set_fault v (w : World) : World :=
  mkWorld (workspaceFolders w) (settings w) (files w) v (watchers w)
    (listeners w) (registrations w) (subscriptions w) (disposables w)
    (treeDataProvider w) (logOutputChannel w) (httpConfig w) (tasksCache w)
    (hoverCache w) (trace w).

Definition set_watchers v (w : World) : World :=
  mkWorld (workspaceFolders w) (settings w) (files w) (fault w) v
    (listeners w) (registrations w) (subscriptions w) (disposables w)
    (treeDataProvider w) (logOutputChannel w) (httpConfig w) (tasksCache w)
    (hoverCache w) (trace w).

Definition set_listeners v (w : World) : World :=
  mkWorld (workspaceFolders w) (settings w) (files w) (fault w) (watchers w) v
    (registrations w) (subscriptions w) (disposables w) (treeDataProvider w)
    (logOutputChannel w) (httpConfig w) (tasksCache w) (hoverCache w)
    (trace w).

Definition set_registrations v (w : World) : World :=
  mkWorld (workspaceFolders w) (settings w) (files w) (fault w) (watchers w)
    (listeners w) v (subscriptions w) (disposables w) (treeDataProvider w)
    (logOutputChannel w) (httpConfig w) (tasksCache w) (hoverCache w)
    (trace w).

Definition set_subscriptions v (w : World) : World :=
  mkWorld (workspaceFolders w) (settings w) (files w) (fault w) (watchers w)
    (listeners w) (registrations w) v (disposables w) (treeDataProvider w)
    (logOutputChannel w) (httpConfig w) (tasksCache w) (hoverCache w)
    (trace w).

Definition set_disposables v (w : World) : World :=
  mkWorld (workspaceFolders w) (settings w) (files w) (fault w) (watchers w)
    (listeners w) (registrations w) (subscriptions w) v (treeDataProvider w)
    (logOutputChannel w) (httpConfig w) (tasksCache w) (hoverCache w)
    (trace w).

Definition set_treeDataProvider v (w : World) : World :=
  mkWorld (workspaceFolders w) (settings w) (files w) (fault w) (watchers w)
    (listeners w) (registrations w) (subscriptions w) (disposables w) v
    (logOutputChannel w) (httpConfig w) (tasksCache w) (hoverCache w)
    (trace w).

Definition set_logOutputChannel v (w : World) : World :=
  mkWorld (workspaceFolders w) (settings w) (files w) (fault w) (watchers w)
    (listeners w) (registrations w) (subscriptions w) (disposables w)
    (treeDataProvider w) v (httpConfig w) (tasksCache w) (hoverCache w)
    (trace w).

Definition set_httpConfig v (w : World) : World :=
  mkWorld (workspaceFolders w) (settings w) (files w) (fault w) (watchers w)
    (listeners w) (registrations w) (subscriptions w) (disposables w)
    (treeDataProvider w) (logOutputChannel w) v (tasksCache w) (hoverCache w)
    (trace w).

Definition set_tasksCache v (w : World) : World :=
  mkWorld (workspaceFolders w) (settings w) (files w) (fault w) (watchers w)
    (listeners w) (registrations w) (subscriptions w) (disposables w)
    (treeDataProvider w) (logOutputChannel w) (httpConfig w) v (hoverCache w)
    (trace w).

Definition set_hoverCache v (w : World) : World :=
  mkWorld (workspaceFolders w) (settings w) (files w) (fault w) (watchers w)
    (listeners w) (registrations w) (subscriptions w) (disposables w)
    (treeDataProvider w) (logOutputChannel w) (httpConfig w) (tasksCache w) v
    (trace w).

Definition set_trace v (w : World) : World :=
  mkWorld (workspaceFolders w) (settings w) (files w) (fault w) (watchers w)
    (listeners w) (registrations w) (subscriptions w) (disposables w)
    (treeDataProvider w) (logOutputChannel w) (httpConfig w) (tasksCache w)
    (hoverCache w) v.

(** ** The monad of the module's code

    A computation runs in a world and either returns or throws; the world it
    leaves is kept in both cases, as in JavaScript. *)

Definition M (A : Type) : Type := World → Result A * World.

Global Instance M_ret : MRet M := λ A a w, (Ok a, w).

Global Instance M_bind : MBind M := λ A B f m w,
  match m w with
  | (Ok a, w') => f a w'
  | (Throw e, w') => (Throw e, w')
  end.

Definition throw {A} (e : Error) : M A := λ w, (Throw e, w).

(** [m.catch(h)] of a promise, [try m catch h] of a block. *)
Definition catch {A} (m : M A) (h : Error → M A) : M A := λ w,
  match m w with
  | (Ok a, w') => (Ok a, w')
  | (Throw e, w') => h e w'
  end.

Definition gets {A} (f : World → A) : M A := λ w, (Ok (f w), w).

Definition modify (f : World → World) : M unit := λ w, (Ok tt, f w).

Definition emit (fx : Effect) : M unit :=
  modify (λ w, set_trace (trace w ++ [fx]) w).

(** A call out of this module: into the host or into another module of the
    extension.  It throws when the world says that this call is the failing
    one. *)
Definition external : M unit := λ w,
  match fault w with
  | None => (Ok tt, w)
  | Some (0, e) => (Throw e, set_fault None w)
  | Some (S n, e) => (Ok tt, set_fault (Some (n, e)) w)
  end.

Definition subscribe (src : Source) (cb : Callback) : M Disposable :=
  external;;
  modify (λ w, set_listeners (listeners w ++ [(src, cb)]) w);;
  mret (DispListener src).

Definition register (r : Registration) : M unit :=
  external;;
  modify (λ w, set_registrations (registrations w ++ [r]) w).

(** ** The host interface used by [extension.ts] *)

Definition window_createOutputChannel (name : string) : M string :=
  external;; mret name.

Definition outputChannel_show (channel : string) : M unit :=
  external;; emit (FxShowChannel channel).

Definition commands_registerCommand (name : string) (cb : Callback)
  : M Disposable :=
  subscribe (SrcCommand name) cb;; mret (DispCommand name).

Definition workspace_createFileSystemWatcher (pattern : string) : M nat :=
  external;;
  id ← gets (λ w, length (watchers w));
  modify (λ w, set_watchers (watchers w ++ [pattern]) w);;
  mret id.

Definition watcher_onDidChange (watcher : nat) (cb : Callback) : M Disposable :=
  subscribe (SrcWatcher watcher FsChange) cb.

Definition watcher_onDidDelete (watcher : nat) (cb : Callback) : M Disposable :=
  subscribe (SrcWatcher watcher FsDelete) cb.

Definition watcher_onDidCreate (watcher : nat) (cb : Callback) : M Disposable :=
  subscribe (SrcWatcher watcher FsCreate) cb.

Definition workspace_onDidChangeWorkspaceFolders (cb : Callback) : M Disposable :=
  subscribe SrcWorkspaceFolders cb.

Definition workspace_onDidChangeConfiguration (cb : Callback) : M Disposable :=
  subscribe SrcConfiguration cb.

Definition workspace_onDidChangeTextDocument (cb : Callback) : M Disposable :=
  subscribe SrcTextDocument cb.

Definition workspace_registerTaskProvider (type : string) (p : AntTaskProvider)
  : M Disposable :=
  register (RegTaskProvider type p);; mret (DispTaskProvider type).

Definition window_createTreeView (id : string) (p : TaskTreeDataProvider)
    (showCollapseAll : bool) : M Disposable :=
  register (RegTreeView id p showCollapseAll);; mret (DispTreeView id).

Definition languages_registerHoverProvider (sel : DocumentSelector)
    (p : NpmScriptHoverProvider) : M Disposable :=
  register (RegHoverProvider sel p);; mret (DispHoverProvider sel).

Definition workspace_getConfiguration (section : string)
  : M WorkspaceConfiguration :=
  external;;
  gets (λ w, mkWorkspaceConfiguration section (settings w)).

(** [c.get(key, defaultValue)]: the stored value, or the default. *)
Definition wc_get (c : WorkspaceConfiguration) (key : string) (dflt : CfgVal)
  : M CfgVal :=
  external;;
  emit (FxReadSetting (wc_section c +:+ "." +:+ key));;
  mret (default dflt (wc_store c !! (wc_section c +:+ "." +:+ key))).

(** [configure] of request-light. *)
Definition httpRequest_configure (proxy strictSSL : CfgVal) : M unit :=
  external;;
  modify (set_httpConfig (Some (proxy, strictSSL)));;
  emit (FxHttpConfigure proxy strictSSL).

Definition console_error (e : Error) : M unit := emit (FxConsoleError e).

Definition push_subscription (d : Disposable) : M unit :=
  modify (λ w, set_subscriptions (subscriptions w ++ [d]) w).

Definition push_disposable (d : Disposable) : M unit :=
  modify (λ w, set_disposables (disposables w ++ [d]) w).

(** ** The modules this one imports

    Their sources are not part of the file under study; each is modelled
    from what the specification says of it. *)

(** Modelled from the spec: the constructors of [AntTaskProvider] (./tasks),
    [TaskTreeDataProvider] (./taskView) and [NpmScriptHoverProvider]
    (./scriptHover) are missing; each builds its object. *)
Definition new_AntTaskProvider : M AntTaskProvider :=
  external;; mret NewAntTaskProvider.

(** Modelled from the spec: [new TaskTreeDataProvider(context)], as above. *)
Definition new_TaskTreeDataProvider : M TaskTreeDataProvider :=
  external;; mret NewTaskTreeDataProvider.

(** Modelled from the spec: [new NpmScriptHoverProvider(context)], as
    above. *)
Definition new_NpmScriptHoverProvider : M NpmScriptHoverProvider :=
  external;; mret NewNpmScriptHoverProvider.

(** Modelled from the spec: [refresh] of the tree view adapter (./taskView) is
    missing; the adapter "exposes a refresh operation". *)
Definition treeDataProvider_refresh (p : TaskTreeDataProvider) : M unit :=
  emit FxRefreshTree.

(** Modelled from the spec: [invalidateTasksCache] (./tasks) is missing;
    "invalidate(scope | all) clears entries", here of every scope. *)
Definition invalidateTasksCache : M unit :=
  modify (set_tasksCache ∅).

(** Modelled from the spec: [invalidateHoverScriptsCache] (./scriptHover) is
    missing; "invalidate(scope | all) clears entries": the entry of the
    document when one is given, every entry otherwise. *)
Definition invalidateHoverScriptsCache (document : option TextDocument)
  : M unit :=
  match document with
  | None => modify (set_hoverCache ∅)
  | Some d => modify (λ w, set_hoverCache (delete (doc_uri d) (hoverCache w)) w)
  end.

(** Modelled from the spec: the [configuration] accessor (./common/configuration)
    is missing; it "reads named settings from a host-provided configuration
    store", those of the extension's own section. *)
Definition configuration_section : string := "taskView".

(** Modelled from the spec: [configuration.get(key)] of that accessor; an
    unset key reads as undefined. *)
Definition configuration_get (key : string) : M (option CfgVal) :=
  external;;
  emit (FxReadSetting (configuration_section +:+ "." +:+ key));;
  gets (λ w, settings w !! (configuration_section +:+ "." +:+ key)).

(** Modelled from the spec: [log] (./util) is missing; it writes a line to
    the log. *)
Definition log (msg : string) : M unit :=
  external;; emit (FxLog msg).

(** Modelled from the spec: [addJSONProviders] (./features/jsonContributions)
    is missing; it registers the JSON contributions and returns their
    disposable. *)
Definition addJSONProviders : M Disposable :=
  register RegJSONProviders;; mret DispJSONProviders.

(** ** [extension.ts] *)

(** [logOutputChannel.show()], on the module level variable. *)
Definition logOutputChannel_show : M unit :=
  ch ← gets logOutputChannel;
  match ch with
  | Some c => outputChannel_show c
  | None => throw "TypeError: logOutputChannel is undefined"
  end.

Definition configureHttpRequest : M unit :=
  httpSettings ← workspace_getConfiguration "http";
  proxy ← wc_get httpSettings "proxy" (CString "");
  strictSSL ← wc_get httpSettings "proxyStrictSSL" (CBool true);
  httpRequest_configure proxy strictSSL.

(** The inner function of [registerAntTaskProvider]. *)
Definition invalidateScriptCaches : M unit :=
  invalidateHoverScriptsCache None;;
  invalidateTasksCache;;
  p ← gets treeDataProvider;
  match p with
  | Some t => treeDataProvider_refresh t
  | None => mret tt
  end.

(** A file system watcher with its three listeners, pushed on the
    subscriptions: the block repeated for each pattern. *)
Definition watch (pattern : string) : M unit :=
  watcher ← workspace_createFileSystemWatcher pattern;
  watcher_onDidChange watcher CbInvalidateScriptCaches;;
  watcher_onDidDelete watcher CbInvalidateScriptCaches;;
  watcher_onDidCreate watcher CbInvalidateScriptCaches;;
  push_subscription (DispWatcher watcher).

Definition registerAntTaskProvider : M (option Disposable) :=
  folders ← gets workspaceFolders;
  if defined folders then
    watch "**/[Bb]uild.xml";;
    watch "**/package.json";;
    watch "**/.vscode/tasks.json";;
    workspaceWatcher ← workspace_onDidChangeWorkspaceFolders CbInvalidateScriptCaches;
    push_subscription workspaceWatcher;;
    provider ← new_AntTaskProvider;
    disposable ← workspace_registerTaskProvider "ant" provider;
    mret (Some disposable)
  else mret None.

Definition registerExplorer : M (option TaskTreeDataProvider) :=
  folders ← gets workspaceFolders;
  if defined folders then
    treeDataProvider ← new_TaskTreeDataProvider;
    view ← window_createTreeView "taskView" treeDataProvider true;
    push_subscription view;;
    mret (Some treeDataProvider)
  else mret None.

Definition npmSelector : DocumentSelector :=
  mkDocumentSelector (Some "json") (Some "file") (Some "**/package.json").

Definition registerHoverProvider : M (option NpmScriptHoverProvider) :=
  folders ← gets workspaceFolders;
  if defined folders then
    provider ← new_NpmScriptHoverProvider;
    d ← languages_registerHoverProvider npmSelector provider;
    push_subscription d;;
    mret (Some provider)
  else mret None.

(** What a callback does when the host calls it.  The host hands each
    listener the event of its source; on any other argument the code does
    what JavaScript does on a missing property.  [runSelectedScript] is
    imported from ./commands, which is missing: it is a call out of this
    module and nothing more is said of it here. *)
Definition run_callback (cb : Callback) (arg : Payload) : M unit :=
  match cb with
  | CbShowOutput => logOutputChannel_show
  | CbConfigurationChanged =>
      configureHttpRequest;;
      match arg with
      | PConfig e =>
          if affectsConfiguration e "taskView.exclude" then
            invalidateTasksCache;;
            p ← gets treeDataProvider;
            match p with
            | Some t => treeDataProvider_refresh t
            | None => mret tt
            end
          else mret tt
      | _ => throw "TypeError: e.affectsConfiguration is not a function"
      end
  | CbTextDocumentChanged =>
      match arg with
      | PDocument d => invalidateHoverScriptsCache (Some d)
      | PNone => throw "TypeError: e is undefined"
      | _ => invalidateHoverScriptsCache None
      end
  | CbRunSelectedScript => external
  | CbInvalidateScriptCaches => invalidateScriptCaches
  end.

Definition tryInit : M unit :=
  registerAntTaskProvider;;
  p ← registerExplorer;
  modify (set_treeDataProvider p);;
  registerHoverProvider;;
  configureHttpRequest;;
  d ← workspace_onDidChangeConfiguration CbConfigurationChanged;
  push_subscription d;;
  d ← workspace_onDidChangeTextDocument CbTextDocumentChanged;
  push_subscription d;;
  c ← commands_registerCommand "taskView.runSelectedScript" CbRunSelectedScript;
  push_subscription c;;
  j ← addJSONProviders;
  push_subscription j;;
  log "Tasks View started successfully";;
  log " ".

Definition _activate : M unit :=
  channel ← window_createOutputChannel "Task View";
  modify (set_logOutputChannel (Some channel));;
  commands_registerCommand "taskView.showOutput" CbShowOutput;;
  push_disposable (DispChannel channel);;
  showOutput ← configuration_get "showOutput";
  (if truthy showOutput then logOutputChannel_show else mret tt);;
  tryInit.

Definition activate : M unit :=
  modify (set_disposables []);;
  push_subscription DispAll;;
  catch _activate console_error.

Definition deactivate : M unit := mret tt.

(** ** The host at work: events and queries *)

(** The world in which the host activates the extension: nothing is
    registered yet, the module level variables are unset and the caches are
    empty. *)
Definition initial (folders : option (list string)) (s : gmap string CfgVal)
    (fs : gmap string string) (f : option (nat * Error)) : World :=
  mkWorld folders s fs f [] [] [] [] [] None None None ∅ ∅ [].

Inductive HostEvent :=
  | FileCreated (path content : string)
  | FileChanged (path content : string)
  | FileDeleted (path : string)
  | WorkspaceFoldersChanged (folders : option (list string))
  | ConfigurationChanged (s : gmap string CfgVal) (e : ConfigurationChangeEvent)
  | TextDocumentChanged (d : TextDocument).

Inductive Action :=
  | Deliver (ev : HostEvent)
  | QueryTasks (scope : string)
  | QueryHover (scope : string).

Definition subscribers (src : Source) (w : World) : list Callback :=
  omap (λ p, if decide (p.1 = src) then Some p.2 else None) (listeners w).

(** The host calls the subscribers in turn; what one of them throws stays
    with the host and the next one is called. *)
Definition fire (src : Source) (arg : Payload) (w : World) : World :=
  foldl (λ w cb, (run_callback cb arg w).2) w (subscribers src w).

(** A document passes a filter when each field the filter gives agrees. *)
Definition field_ok (want : option string) (test : string → bool) : bool :=
  match want with
  | Some v => test v
  | None => true
  end.

(** [preserves P m]: running [m] keeps [P], whether it returns or throws. *)
Definition preserves {A} (P : World → Prop) (m : M A) : Prop :=
  ∀ w, P w → P (m w).2.

(** What the extension has set up with the host. *)
Definition wiring (w : World) :=
  (watchers w, listeners w, registrations w, treeDataProvider w,
   logOutputChannel w).

(** The callback that [extension.ts] subscribes to each source. *)
Definition expected (src : Source) (cb : Callback) : Prop :=
  match src with
  | SrcWatcher _ _ | SrcWorkspaceFolders => cb = CbInvalidateScriptCaches
  | SrcConfiguration => cb = CbConfigurationChanged
  | SrcTextDocument => cb = CbTextDocumentChanged
  | SrcCommand _ => True
  end.

Definition well_wired (w : World) : Prop :=
  ∀ src cb, (src, cb) ∈ listeners w → expected src cb.

(** The sources of file system and workspace folder events. *)
Definition watching (src : Source) : Prop :=
  match src with
  | SrcWatcher _ _ | SrcWorkspaceFolders => True
  | _ => False
  end.

(** No workspace is open and nothing that needs one is registered: no
    watcher, no listener of file or folder events, no task provider, tree
    view or hover provider, and no tree data provider is kept. *)
Definition without_workspace (w : World) : Prop :=
  workspaceFolders w = None
  ∧ watchers w = []
  ∧ (∀ r, r ∈ registrations w → r = RegJSONProviders)
  ∧ (∀ src cb, (src, cb) ∈ listeners w → ¬ watching src)
  ∧ treeDataProvider w = None.

(** What [invalidateScriptCaches] leaves of a world. *)
Definition invalidated (w : World) : World :=
  let w' := set_tasksCache ∅ (set_hoverCache ∅ w) in
  match treeDataProvider w with
  | Some _ => set_trace (trace w ++ [FxRefreshTree]) w'
  | None => w'
  end.

(** A matcher and a parser for the examples: a pattern [**/x] matches the
    paths that end in [/x], any other pattern matches itself; a folder holds
    one npm script when it has a [package.json]. *)
Definition ends_with (suffix s : string) : bool :=
  String.eqb
    (String.substring (String.length s - String.length suffix)
       (String.length suffix) s)
    suffix.

Definition suffix_glob (pattern path : string) : bool :=
  if String.prefix "**/" pattern
  then ends_with (String.substring 2 (String.length pattern - 2) pattern) path
  else String.eqb pattern path.

Definition manifest_scripts (fs : gmap string string) (scope : string)
  : list Task :=
  match fs !! (scope +:+ "/package.json") with
  | Some content =>
      [mkTask npm "build" (scope +:+ "/package.json") content ((0, 0), (0, 0))]
  | None => []
  end.

Section Host.
Set Default Proof Using "Type".

(** The host's glob matching: [glob_match pattern path]. *)
Variable glob_match : string → string → bool.

(** Modelled from the spec: the script and task parser (./tasks,
    ./scriptHover) is missing; [discover fs scope] is what parsing the
    manifests of a scope yields on the files [fs]. *)
Variable discover : gmap string string → string → list Task.

Definition selector_matches (sel : DocumentSelector) (d : TextDocument) : bool :=
  field_ok (sel_language sel) (String.eqb (doc_languageId d))
  && field_ok (sel_scheme sel) (String.eqb (doc_scheme d))
  && field_ok (sel_pattern sel) (λ p, glob_match p (doc_uri d)).

(** The documents for which the host asks the script hover provider. *)
Definition hover_offered (w : World) (d : TextDocument) : bool :=
  existsb (λ r, match r with
                | RegHoverProvider sel _ => selector_matches sel d
                | _ => false
                end) (registrations w).

(** A file event reaches the listeners of its kind on every watcher whose
    pattern matches the path. *)
Definition fire_watchers (k : FsEventKind) (path : string) (w : World) : World :=
  foldl (λ w ip, if glob_match ip.2 path
                 then fire (SrcWatcher ip.1 k) (PUri path) w else w)
        w (imap pair (watchers w)).

Definition deliver (ev : HostEvent) (w : World) : World :=
  match ev with
  | FileCreated path content =>
      fire_watchers FsCreate path (set_files (<[path:=content]> (files w)) w)
  | FileChanged path content =>
      fire_watchers FsChange path (set_files (<[path:=content]> (files w)) w)
  | FileDeleted path =>
      fire_watchers FsDelete path (set_files (delete path (files w)) w)
  | WorkspaceFoldersChanged folders =>
      fire SrcWorkspaceFolders PFolders (set_workspaceFolders folders w)
  | ConfigurationChanged s e =>
      fire SrcConfiguration (PConfig e) (set_settings s w)
  | TextDocumentChanged d =>
      fire SrcTextDocument (PDocument d) w
  end.

(** Modelled from the spec: the discovery cache (./tasks, ./scriptHover) is
    missing; "get(scope) -> sequence of Task, populates via the parser if
    absent". *)
Definition getTasks (scope : string) : M (list Task) :=
  c ← gets tasksCache;
  match c !! scope with
  | Some ts => mret ts
  | None =>
      emit (FxParse scope);;
      ts ← gets (λ w, discover (files w) scope);
      modify (λ w, set_tasksCache (<[scope:=ts]> (tasksCache w)) w);;
      mret ts
  end.

(** Modelled from the spec: the same contract, for the cache of hover
    scripts (./scriptHover), whose scopes are documents. *)
Definition getHoverScripts (scope : string) : M (list Task) :=
  c ← gets hoverCache;
  match c !! scope with
  | Some ts => mret ts
  | None =>
      emit (FxParse scope);;
      ts ← gets (λ w, discover (files w) scope);
      modify (λ w, set_hoverCache (<[scope:=ts]> (hoverCache w)) w);;
      mret ts
  end.

(** Modelled from the spec: the exclusion setting read by the task provider
    (./tasks) is missing; a glob or a list of globs. *)
Definition exclusions (s : gmap string CfgVal) : list string :=
  match s !! "taskView.exclude" with
  | Some (CString p) => [p]
  | Some (CStrings ps) => ps
  | _ => []
  end.

(** Modelled from the spec: a task is excluded when its defining file
    matches one of the exclusion globs. *)
Definition excluded (ps : list string) (t : Task) : bool :=
  existsb (λ p, glob_match p (task_file t)) ps.

(** Modelled from the spec: "combining parser output across" the scopes,
    each read through the cache. *)
Fixpoint getAllTasks (scopes : list string) : M (list Task) :=
  match scopes with
  | [] => mret []
  | s :: rest =>
      ts ← getTasks s;
      more ← getAllTasks rest;
      mret (ts ++ more)
  end.

(** Modelled from the spec: the task provider (./tasks) is missing;
    "list(kind) -> sequence of Task, filtered by exclusion globs", over the
    workspace folders, none of which gives the empty sequence. *)
Definition list_tasks (kind : TaskKind) : M (list Task) :=
  folders ← gets workspaceFolders;
  all ← getAllTasks (default [] folders);
  ps ← gets (λ w, exclusions (settings w));
  mret (List.filter
          (λ t, bool_decide (task_kind t = kind) && negb (excluded ps t)) all).

Definition step (a : Action) (w : World) : World :=
  match a with
  | Deliver ev => deliver ev w
  | QueryTasks scope => (getTasks scope w).2
  | QueryHover scope => (getHoverScripts scope w).2
  end.

Definition run (acts : list Action) (w : World) : World :=
  foldl (λ w a, step a w) w acts.

(** The world the host works with once it has activated the extension. *)
Definition activated (folders : option (list string)) (s : gmap string CfgVal)
    (fs : gmap string string) (f : option (nat * Error)) : World :=
  (activate (initial folders s fs f)).2.

(** The worlds wired as activation in a workspace leaves them. *)
Definition wired_as (l : list string) (s : gmap string CfgVal)
    (fs : gmap string string) (w : World) : Prop :=
  wiring w = wiring (activated (Some l) s fs None).

(** The change events of the watchers and of the workspace folders. *)
Definition watched_change (ev : HostEvent) (w : World) : Prop :=
  match ev with
  | FileCreated path _ | FileChanged path _ | FileDeleted path =>
      ∃ pattern, pattern ∈ watchers w ∧ glob_match pattern path = true
  | WorkspaceFoldersChanged _ => True
  | _ => False
  end.

(** The events after which the callbacks of [extension.ts] invalidate the
    tasks of a scope, and the hover scripts of a scope. *)
Definition invalidates_tasks (ev : HostEvent) (w : World) : Prop :=
  match ev with
  | ConfigurationChanged _ e => affectsConfiguration e "taskView.exclude" = true
  | _ => watched_change ev w
  end.

Definition invalidates_hover (ev : HostEvent) (w : World) (scope : string)
  : Prop :=
  match ev with
  | TextDocumentChanged d => doc_uri d = scope
  | _ => watched_change ev w
  end.

(** ** Notions for the further properties *)

(** [returns m R]: whenever [m] returns, its result satisfies [R]. *)
Definition returns {A} (m : M A) (R : A → Prop) : Prop :=
  ∀ w a w', m w = (Ok a, w') → R a.

(** The handles that [extension.ts] hands to the extension context or puts
    in the local array of [activate]. *)
Definition tracked (d : Disposable) : Prop :=
  match d with
  | DispTaskProvider _ => False
  | DispCommand name => name = "taskView.runSelectedScript"
  | DispListener (SrcWatcher _ _) => False
  | _ => True
  end.

(** Everything that the host disposes of with the extension. *)
Definition kept_handles (w : World) : list Disposable :=
  subscriptions w ++ disposables w.

(** The tree view of the extension is registered. *)
Definition tree_view_registered (w : World) : Prop :=
  ∃ p b, RegTreeView "taskView" p b ∈ registrations w.

(** The proxy configuration in force is the one the settings store gives. *)
Definition proxy_in_sync (w : World) : Prop :=
  httpConfig w
  = Some (default (CString "") (settings w !! "http.proxy"),
          default (CBool true) (settings w !! "http.proxyStrictSSL")).


(** The [taskView.showOutput] command, when registered, is the callback that
    shows the channel, and the channel exists. *)
Definition output_command_ready (w : World) : Prop :=
  ∀ cb, (SrcCommand "taskView.showOutput", cb) ∈ listeners w →
        cb = CbShowOutput ∧ logOutputChannel w = Some "Task View".

(** The channel exists, and the command can only be that callback. *)
Definition output_channel_set (w : World) : Prop :=
  logOutputChannel w = Some "Task View"
  ∧ ∀ cb, (SrcCommand "taskView.showOutput", cb) ∈ listeners w →
          cb = CbShowOutput.

(** Before the explorer is registered: no provider is kept, no tree view
    exists and the tree was never refreshed. *)
Definition no_tree (w : World) : Prop :=
  treeDataProvider w = None
  ∧ ¬ tree_view_registered w
  ∧ FxRefreshTree ∉ trace w.

(** The provider is kept exactly when the tree view exists, and the tree was
    refreshed only if so. *)
Definition tree_consistent (w : World) : Prop :=
  (is_Some (treeDataProvider w) ↔ tree_view_registered w)
  ∧ (FxRefreshTree ∈ trace w → tree_view_registered w).

(** * Properties *)

(** ** Rules for [preserves] *)

Section Preserves.
Context (P : World → Prop).

Lemma preserves_ret {A} (a : A) : preserves P (mret a).
Proof. intros w H. exact H. Qed.

Lemma preserves_bind {A B} (m : M A) (f : A → M B) :
  preserves P m → (∀ a, preserves P (f a)) → preserves P (m ≫= f).
Proof.
  intros Hm Hf w H. specialize (Hm w H). unfold mbind, M_bind.
  destruct (m w) as [[a|e] w']; simpl in *; [by apply Hf | done].
Qed.

Lemma preserves_throw {A} e : preserves P (@throw A e).
Proof. intros w H. exact H. Qed.

Lemma preserves_catch {A} (m : M A) h :
  preserves P m → (∀ e, preserves P (h e)) → preserves P (catch m h).
Proof.
  intros Hm Hh w H. specialize (Hm w H). unfold catch.
  destruct (m w) as [[a|e] w']; simpl in *; [done | by apply Hh].
Qed.

Lemma preserves_gets {A} (f : World → A) : preserves P (gets f).
Proof. intros w H. exact H. Qed.

Lemma preserves_modify (f : World → World) :
  (∀ w, P w → P (f w)) → preserves P (modify f).
Proof. intros Hf w H. by apply Hf. Qed.

(** A property that does not look at [fault] survives a call out of the
    module, thrown or not. *)
Lemma preserves_external :
  (∀ v w, P w → P (set_fault v w)) → preserves P external.
Proof.
  intros Hf w H. unfold external.
  destruct (fault w) as [[[|n] e]|]; simpl; auto.
Qed.

Lemma external_reliable w : fault w = None → external w = (Ok tt, w).
Proof. intros H. unfold external. by rewrite H. Qed.

Lemma preserves_external_reliable :
  (∀ w, P w → fault w = None) → preserves P external.
Proof. intros Hf w H. by rewrite (external_reliable w (Hf w H)). Qed.

Lemma preserves_foldl {X} (f : World → X → World) (l : list X) :
  (∀ x w, P w → P (f w x)) → ∀ w, P w → P (foldl f w l).
Proof. intros Hf. induction l as [|x l IH]; simpl; auto. Qed.

End Preserves.

Ltac head_of t :=
  lazymatch t with
  | ?f _ => head_of f
  | _ => t
  end.

(** One step through the code of a computation: a rule for its head, a case
    split on what it tests, or the unfolding of the function it calls. *)
Ltac preserve_step :=
  lazymatch goal with
  | |- preserves _ (mret _) => apply preserves_ret
  | |- preserves _ (_ ≫= _) => apply preserves_bind; [|intros ?]
  | |- preserves _ (throw _) => apply preserves_throw
  | |- preserves _ (catch _ _) => apply preserves_catch; [|intros ?]
  | |- preserves _ (gets _) => apply preserves_gets
  | |- preserves _ (modify _) => apply preserves_modify
  | |- preserves _ external =>
      first [ apply preserves_external; solve [done]
            | apply preserves_external_reliable; solve [done] ]
  | |- preserves _ ?m =>
      first
        [ lazymatch m with context [match ?x with _ => _ end] => destruct x end
        | let h := head_of m in unfold h ]
  end.

Ltac preserve := repeat preserve_step.

(** ** What events and queries leave alone *)

Lemma fire_preserves (P : World → Prop) :
  (∀ cb arg, preserves P (run_callback cb arg)) →
  ∀ src arg w, P w → P (fire src arg w).
Proof.
  intros Hcb src arg w. unfold fire.
  generalize (subscribers src w). intros l. revert w.
  apply preserves_foldl. intros cb w' H. by apply Hcb.
Qed.

Lemma fire_watchers_preserves (P : World → Prop) :
  (∀ cb arg, preserves P (run_callback cb arg)) →
  ∀ k path w, P w → P (fire_watchers k path w).
Proof.
  intros Hcb k path w. unfold fire_watchers.
  generalize (imap pair (watchers w)). intros l. revert w.
  apply preserves_foldl. intros [i pattern] w' H. simpl.
  destruct (glob_match pattern path); [by apply fire_preserves | done].
Qed.

Lemma deliver_preserves (P : World → Prop) :
  (∀ cb arg, preserves P (run_callback cb arg)) →
  (∀ v w, P w → P (set_files v w)) →
  (∀ v w, P w → P (set_settings v w)) →
  (∀ v w, P w → P (set_workspaceFolders v w)) →
  ∀ ev w, P w → P (deliver ev w).
Proof.
  intros Hcb Hf Hs Hw ev w H.
  destruct ev; simpl;
    first [apply fire_watchers_preserves | apply fire_preserves]; auto.
Qed.

Lemma run_preserves (P : World → Prop) :
  (∀ a w, P w → P (step a w)) → ∀ acts w, P w → P (run acts w).
Proof. intros Hstep acts. unfold run. by apply preserves_foldl. Qed.

(** The callbacks and the cache never touch what is registered. *)
Lemma run_callback_wiring x cb arg :
  preserves (λ w, wiring w = x) (run_callback cb arg).
Proof. preserve; done. Qed.

Lemma step_wiring_eq x a w : wiring w = x → wiring (step a w) = x.
Proof.
  destruct a as [ev|scope|scope]; simpl.
  - apply (deliver_preserves (λ w, wiring w = x)); try done.
    intros. apply run_callback_wiring.
  - revert w. change (preserves (λ w, wiring w = x) (getTasks scope)).
    preserve; done.
  - revert w. change (preserves (λ w, wiring w = x) (getHoverScripts scope)).
    preserve; done.
Qed.

Lemma run_wiring acts w : wiring (run acts w) = wiring w.
Proof.
  apply (run_preserves (λ w', wiring w' = wiring w)); [|done].
  intros a w' H. by apply step_wiring_eq.
Qed.

(** On a host whose calls return, they keep returning. *)
Lemma run_callback_reliable cb arg :
  preserves (λ w, fault w = None) (run_callback cb arg).
Proof. preserve; done. Qed.

Lemma step_reliable a w : fault w = None → fault (step a w) = None.
Proof.
  destruct a as [ev|scope|scope]; simpl.
  - apply (deliver_preserves (λ w, fault w = None)); try done.
    intros. apply run_callback_reliable.
  - revert w. change (preserves (λ w, fault w = None) (getTasks scope)).
    preserve; done.
  - revert w. change (preserves (λ w, fault w = None) (getHoverScripts scope)).
    preserve; done.
Qed.

Lemma run_reliable acts w : fault w = None → fault (run acts w) = None.
Proof. apply (run_preserves (λ w, fault w = None)), step_reliable. Qed.

(** ** Activation on a host whose calls return *)

(** The world that activation leaves, field by field. *)
Lemma activate_reliable folders s fs :
  activate (initial folders s fs None) =
  (Ok tt,
   mkWorld folders s fs None
     (if defined folders
      then ["**/[Bb]uild.xml"; "**/package.json"; "**/.vscode/tasks.json"]
      else [])
     ([(SrcCommand "taskView.showOutput", CbShowOutput)]
      ++ (if defined folders
          then [(SrcWatcher 0 FsChange, CbInvalidateScriptCaches);
                (SrcWatcher 0 FsDelete, CbInvalidateScriptCaches);
                (SrcWatcher 0 FsCreate, CbInvalidateScriptCaches);
                (SrcWatcher 1 FsChange, CbInvalidateScriptCaches);
                (SrcWatcher 1 FsDelete, CbInvalidateScriptCaches);
                (SrcWatcher 1 FsCreate, CbInvalidateScriptCaches);
                (SrcWatcher 2 FsChange, CbInvalidateScriptCaches);
                (SrcWatcher 2 FsDelete, CbInvalidateScriptCaches);
                (SrcWatcher 2 FsCreate, CbInvalidateScriptCaches);
                (SrcWorkspaceFolders, CbInvalidateScriptCaches)]
          else [])
      ++ [(SrcConfiguration, CbConfigurationChanged);
          (SrcTextDocument, CbTextDocumentChanged);
          (SrcCommand "taskView.runSelectedScript", CbRunSelectedScript)])
     ((if defined folders
       then [RegTaskProvider "ant" NewAntTaskProvider;
             RegTreeView "taskView" NewTaskTreeDataProvider true;
             RegHoverProvider npmSelector NewNpmScriptHoverProvider]
       else [])
      ++ [RegJSONProviders])
     ([DispAll]
      ++ (if defined folders
          then [DispWatcher 0; DispWatcher 1; DispWatcher 2;
                DispListener SrcWorkspaceFolders; DispTreeView "taskView";
                DispHoverProvider npmSelector]
          else [])
      ++ [DispListener SrcConfiguration; DispListener SrcTextDocument;
          DispCommand "taskView.runSelectedScript"; DispJSONProviders])
     [DispChannel "Task View"]
     (if defined folders then Some NewTaskTreeDataProvider else None)
     (Some "Task View")
     (Some (default (CString "") (s !! "http.proxy"),
            default (CBool true) (s !! "http.proxyStrictSSL")))
     ∅ ∅
     ([FxReadSetting "taskView.showOutput"]
      ++ (if truthy (s !! "taskView.showOutput")
          then [FxShowChannel "Task View"] else [])
      ++ [FxReadSetting "http.proxy"; FxReadSetting "http.proxyStrictSSL";
          FxHttpConfigure (default (CString "") (s !! "http.proxy"))
            (default (CBool true) (s !! "http.proxyStrictSSL"));
          FxLog "Tasks View started successfully"; FxLog " "])).
Proof.
  destruct folders as [l|]; cbv -[lookup truthy default];
    destruct (truthy _); reflexivity.
Qed.

Lemma activated_reliable_fault folders s fs acts :
  fault (run acts (activated folders s fs None)) = None.
Proof.
  apply run_reliable. unfold activated. by rewrite activate_reliable.
Qed.

Lemma activated_reliable_wiring folders s fs acts :
  wiring (run acts (activated folders s fs None)) =
  wiring (activated folders s fs None).
Proof. apply run_wiring. Qed.

(** ** Activation whatever the host does *)

(** [activate] catches what [_activate] throws. *)
Lemma activate_caught w :
  let w0 := set_subscriptions (subscriptions (set_disposables [] w) ++ [DispAll])
              (set_disposables [] w) in
  match _activate w0 with
  | (Ok _, w1) => activate w = (Ok tt, w1)
  | (Throw e, w1) =>
      activate w = (Ok tt, set_trace (trace w1 ++ [FxConsoleError e]) w1)
  end.
Proof.
  intros w0. unfold activate.
  change ((modify (set_disposables []);; push_subscription DispAll;;
           catch _activate console_error) w)
    with (catch _activate console_error w0).
  unfold catch. by destruct (_activate w0) as [[[]|e] w1].
Qed.

Lemma activate_returns w : (activate w).1 = Ok tt.
Proof.
  pose proof (activate_caught w) as H. simpl in H.
  destruct (_activate _) as [[[]|e] w1]; by rewrite H.
Qed.

(** Every listener is the callback that the code subscribes to its source. *)
Lemma well_wired_add src cb w :
  expected src cb → well_wired w →
  well_wired (set_listeners (listeners w ++ [(src, cb)]) w).
Proof.
  intros He Hw src' cb' Hin. cbn in Hin.
  apply elem_of_app in Hin as [Hin|Hin]; [by apply Hw|].
  apply list_elem_of_singleton in Hin. by simplify_eq.
Qed.

Lemma activate_well_wired : preserves well_wired activate.
Proof.
  preserve; try done; intros; apply well_wired_add; done.
Qed.

Lemma run_well_wired acts w : well_wired w → well_wired (run acts w).
Proof.
  intros H src cb. pose proof (run_wiring acts w) as Hw.
  unfold wiring in Hw. injection Hw as _ Hl _ _ _. rewrite Hl. apply H.
Qed.

Lemma activated_well_wired folders s fs f acts :
  well_wired (run acts (activated folders s fs f)).
Proof.
  apply run_well_wired, activate_well_wired. intros src cb Hin.
  by apply elem_of_nil in Hin.
Qed.

Lemma subscribers_elem src cb w :
  cb ∈ subscribers src w ↔ (src, cb) ∈ listeners w.
Proof.
  unfold subscribers. rewrite list_elem_of_omap. split.
  - intros [[src' cb'] [Hin Heq]]. simpl in Heq.
    case_decide; by simplify_eq.
  - intros Hin. exists (src, cb). split; [done|]. simpl.
    by rewrite decide_True.
Qed.

(** What the callback of the watchers does, in any world. *)
Lemma invalidateScriptCaches_run arg w :
  run_callback CbInvalidateScriptCaches arg w = (Ok tt, invalidated w).
Proof.
  unfold invalidated. cbv [run_callback invalidateScriptCaches].
  cbv [mbind M_bind invalidateHoverScriptsCache invalidateTasksCache modify
       gets treeDataProvider_refresh emit mret M_ret].
  cbn. by destruct (treeDataProvider w).
Qed.

(** ** Events in an activated workspace *)

Lemma invalidated_wiring w : wiring (invalidated w) = wiring w.
Proof. unfold invalidated. by destruct (treeDataProvider w). Qed.

Lemma invalidated_caches w :
  hoverCache (invalidated w) = ∅ ∧ tasksCache (invalidated w) = ∅.
Proof. unfold invalidated. by destruct (treeDataProvider w). Qed.

Lemma invalidated_trace w p :
  treeDataProvider w = Some p →
  trace (invalidated w) = trace w ++ [FxRefreshTree].
Proof. intros H. unfold invalidated. by rewrite H. Qed.

Lemma fire_one src arg cb w :
  subscribers src w = [cb] → fire src arg w = (run_callback cb arg w).2.
Proof. intros H. unfold fire. by rewrite H. Qed.

Section Activated.
Context (l : list string) (s : gmap string CfgVal) (fs : gmap string string).

Local Abbreviation wired := (wired_as l s fs).

Lemma wired_fields w :
  wired w →
  watchers w = ["**/[Bb]uild.xml"; "**/package.json"; "**/.vscode/tasks.json"]
  ∧ treeDataProvider w = Some NewTaskTreeDataProvider
  ∧ (∀ i k, i < 3 → subscribers (SrcWatcher i k) w = [CbInvalidateScriptCaches])
  ∧ subscribers SrcWorkspaceFolders w = [CbInvalidateScriptCaches]
  ∧ subscribers SrcConfiguration w = [CbConfigurationChanged]
  ∧ subscribers SrcTextDocument w = [CbTextDocumentChanged].
Proof.
  unfold wired_as, activated. rewrite activate_reliable. unfold wiring. simpl.
  intros H. injection H as Hw Hl _ Ht _. unfold subscribers. rewrite Hl.
  repeat split; try done.
  intros i k Hi. destruct k; destruct i as [|[|[|i]]]; try lia; reflexivity.
Qed.

Lemma wired_invalidated w : wired w → wired (invalidated w).
Proof. unfold wired_as. by rewrite invalidated_wiring. Qed.

Lemma fire_watcher_wired i k arg w :
  wired w → i < 3 → fire (SrcWatcher i k) arg w = invalidated w.
Proof.
  intros (_ & _ & Hs & _)%wired_fields Hi.
  by rewrite (fire_one _ _ _ _ (Hs i k Hi)), invalidateScriptCaches_run.
Qed.

Lemma fire_watchers_wired k path w :
  wired w →
  fire_watchers k path w =
  let w1 := if glob_match "**/[Bb]uild.xml" path then invalidated w else w in
  let w2 := if glob_match "**/package.json" path then invalidated w1 else w1 in
  if glob_match "**/.vscode/tasks.json" path then invalidated w2 else w2.
Proof.
  intros H. unfold fire_watchers.
  destruct (wired_fields w H) as (-> & _). simpl.
  assert (∀ (b : bool) w', wired w' → wired (if b then invalidated w' else w'))
    as Hif by (intros [|] w' Hw'; [by apply wired_invalidated | done]).
  rewrite (fire_watcher_wired 0) by (done || lia).
  destruct (glob_match "**/[Bb]uild.xml" path) eqn:E1;
  destruct (glob_match "**/package.json" path) eqn:E2;
  destruct (glob_match "**/.vscode/tasks.json" path) eqn:E3;
  rewrite ?(fire_watcher_wired 1), ?(fire_watcher_wired 2);
    auto using wired_invalidated.
Qed.

(** A change that the watchers or the folder listener see empties both
    caches and refreshes the tree, once for each listener called. *)
Lemma watched_change_invalidates ev w :
  wired w → watched_change ev w →
  hoverCache (deliver ev w) = ∅ ∧ tasksCache (deliver ev w) = ∅
  ∧ ∃ n, trace (deliver ev w) = trace w ++ replicate (S n) FxRefreshTree.
Proof.
  intros H Hev.
  assert (∀ w', wired w' →
    hoverCache (invalidated w') = ∅ ∧ tasksCache (invalidated w') = ∅
    ∧ trace (invalidated w') = trace w' ++ [FxRefreshTree]) as Hinv.
  { intros w' (_ & Ht & _)%wired_fields.
    destruct (invalidated_caches w') as [? ?].
    by rewrite (invalidated_trace w' _ Ht). }
  assert (∀ k path v, (∃ pattern, pattern ∈ watchers w
                         ∧ glob_match pattern path = true) →
    let w' := fire_watchers k path (set_files v w) in
    hoverCache w' = ∅ ∧ tasksCache w' = ∅
    ∧ ∃ n, trace w' = trace w ++ replicate (S n) FxRefreshTree) as Hfile.
  { intros k path v (pattern & Hin & Hm).
    assert (wired (set_files v w)) as Hv by exact H.
    rewrite (fire_watchers_wired k path _ Hv).
    destruct (wired_fields w H) as (Hw & _). rewrite Hw in Hin.
    pose proof (Hinv _ Hv) as (Hh1 & Ht1 & Hr1).
    pose proof (Hinv _ (wired_invalidated _ Hv)) as (Hh2 & Ht2 & Hr2).
    pose proof (Hinv _ (wired_invalidated _ (wired_invalidated _ Hv)))
      as (Hh3 & Ht3 & Hr3).
    assert (glob_match "**/[Bb]uild.xml" path = true
            ∨ glob_match "**/package.json" path = true
            ∨ glob_match "**/.vscode/tasks.json" path = true) as Hsome.
    { rewrite !elem_of_cons in Hin.
      destruct Hin as [->|[->|[->|Hin]]]; auto. by apply elem_of_nil in Hin. }
    simpl.
    destruct (glob_match "**/[Bb]uild.xml" path);
    destruct (glob_match "**/package.json" path);
    destruct (glob_match "**/.vscode/tasks.json" path);
      try (destruct Hsome as [?|[?|?]]; discriminate);
      (split; [done|split; [done|]]).
    - exists 2. rewrite Hr3, Hr2, Hr1. simpl. by rewrite <- !app_assoc.
    - exists 1. rewrite Hr2, Hr1. simpl. by rewrite <- !app_assoc.
    - exists 1. rewrite Hr2, Hr1. simpl. by rewrite <- !app_assoc.
    - exists 0. by rewrite Hr1.
    - exists 1. rewrite Hr2, Hr1. simpl. by rewrite <- !app_assoc.
    - exists 0. by rewrite Hr1.
    - exists 0. by rewrite Hr1. }
  destruct ev as [path c|path c|path|folders|s' e|d]; simpl in Hev; try done.
  - by apply Hfile.
  - by apply Hfile.
  - by apply Hfile.
  - simpl. assert (wired (set_workspaceFolders folders w)) as Hv by exact H.
    destruct (wired_fields _ Hv) as (_ & _ & _ & Hs & _).
    rewrite (fire_one _ _ _ _ Hs), invalidateScriptCaches_run. simpl.
    destruct (Hinv _ Hv) as (? & ? & Hr). repeat split; try done.
    exists 0. by rewrite Hr.
Qed.

End Activated.

(** ** File system and workspace folder events *)

(** C1.  Every callback subscribed to a watcher's create, change and delete
    events or to the workspace folder event is [invalidateScriptCaches],
    whatever happened during activation and since.  That callback empties
    the hover scripts cache and the tasks cache, and refreshes the tree view
    exactly when a tree data provider exists.  In a workspace activated on a
    host whose calls return, each such event on a path that a watched
    pattern matches, and each workspace folder event, therefore leaves both
    caches empty and the tree refreshed. *)
Theorem watched_events_invalidate :
  (∀ folders s fs f acts src cb,
     watching src →
     cb ∈ subscribers src (run acts (activated folders s fs f)) →
     cb = CbInvalidateScriptCaches)
  ∧ (∀ arg w,
       run_callback CbInvalidateScriptCaches arg w = (Ok tt, invalidated w)
       ∧ hoverCache (invalidated w) = ∅
       ∧ tasksCache (invalidated w) = ∅
       ∧ trace (invalidated w) =
           trace w ++ (if treeDataProvider w is Some _
                      then [FxRefreshTree] else []))
  ∧ (∀ l s fs acts ev,
       let w := run acts (activated (Some l) s fs None) in
       watched_change ev w →
       hoverCache (deliver ev w) = ∅
       ∧ tasksCache (deliver ev w) = ∅
       ∧ ∃ n, trace (deliver ev w) = trace w ++ replicate (S n) FxRefreshTree).
Proof.
  split; [|split].
  - intros folders s fs f acts src cb Hsrc Hin.
    apply subscribers_elem in Hin.
    apply (activated_well_wired folders s fs f acts) in Hin.
    by destruct src.
  - intros arg w. split; [apply invalidateScriptCaches_run|].
    unfold invalidated. destruct (treeDataProvider w); simpl;
      by rewrite ?app_nil_r.
  - intros l s fs acts ev w. apply (watched_change_invalidates l s fs).
    apply activated_reliable_wiring.
Qed.

(** ** Activation *)

(** C2.  With at least one workspace folder, activation creates watchers for
    the three patterns and for no other, and each watcher has its change,
    delete and create events subscribed. *)
Theorem watchers_created f0 rest s fs :
  let w := activated (Some (f0 :: rest)) s fs None in
  watchers w = ["**/[Bb]uild.xml"; "**/package.json"; "**/.vscode/tasks.json"]
  ∧ ∀ i pattern, watchers w !! i = Some pattern →
      ∀ k, subscribers (SrcWatcher i k) w = [CbInvalidateScriptCaches].
Proof.
  unfold activated. rewrite activate_reliable. simpl. split; [done|].
  intros i pattern Hi k.
  destruct i as [|[|[|i]]]; simpl in Hi; try done; by destruct k.
Qed.

(** C5.  Whatever [_activate] throws, and wherever, [activate] returns: the
    thrown value is written to the console and nothing reaches the host. *)
Theorem activate_never_throws w :
  (activate w).1 = Ok tt
  ∧ let w0 := set_subscriptions (subscriptions (set_disposables [] w) ++ [DispAll])
                (set_disposables [] w) in
    match _activate w0 with
    | (Ok _, w1) => (activate w).2 = w1
    | (Throw e, w1) =>
        (activate w).2 = set_trace (trace w1 ++ [FxConsoleError e]) w1
    end.
Proof.
  split; [apply activate_returns|].
  pose proof (activate_caught w) as H. simpl in *.
  destruct (_activate _) as [[[]|e] w1]; by rewrite H.
Qed.

(** C8.  Activation reads the [showOutput] setting, and shows the log output
    channel exactly when the setting, a boolean, is true. *)
Theorem showOutput_read_and_shown folders s fs :
  (∀ v, s !! "taskView.showOutput" = Some v → ∃ b, v = CBool b) →
  let w := activated folders s fs None in
  logOutputChannel w = Some "Task View"
  ∧ FxReadSetting "taskView.showOutput" ∈ trace w
  ∧ (FxShowChannel "Task View" ∈ trace w
     ↔ s !! "taskView.showOutput" = Some (CBool true)).
Proof.
  intros Hty. unfold activated. rewrite activate_reliable. simpl.
  split; [done|]. split; [apply list_elem_of_here|].
  destruct (s !! "taskView.showOutput") as [v|] eqn:E.
  - destruct (Hty v eq_refl) as [b ->]. destruct b; simpl.
    + split; [done|]. intros _. apply list_elem_of_further, list_elem_of_here.
    + rewrite !elem_of_cons, elem_of_nil. split; [|done].
      intros H. repeat (destruct H as [H|H]; [done|]). done.
  - simpl. rewrite !elem_of_cons, elem_of_nil. split; [|done].
    intros H. repeat (destruct H as [H|H]; [done|]). done.
Qed.

(** C10.  With workspace folders, the script hover provider is registered
    once, for the selector that asks for language json, scheme file and a
    path matching the package.json pattern; the host offers it exactly those
    documents. *)
Theorem hover_provider_selector f0 rest s fs :
  let w := activated (Some (f0 :: rest)) s fs None in
  (∀ sel p, RegHoverProvider sel p ∈ registrations w
            ↔ sel = npmSelector ∧ p = NewNpmScriptHoverProvider)
  ∧ (∀ d, hover_offered w d = true
          ↔ doc_languageId d = "json" ∧ doc_scheme d = "file"
            ∧ glob_match "**/package.json" (doc_uri d) = true).
Proof.
  unfold activated. rewrite activate_reliable. simpl. split.
  - intros sel p. rewrite !elem_of_cons, elem_of_nil. split.
    + intros [?|[?|[?|[?|[]]]]]; simplify_eq. by destruct p.
    + intros [-> ->]. auto.
  - intros d. unfold hover_offered, selector_matches. simpl.
    rewrite orb_false_r, !andb_true_iff, !String.eqb_eq.
    split; [intros [[? ?] ?]|intros (? & ? & ?)]; done.
Qed.

(** ** Configuration and document changes *)

Lemma activated_listening folders s fs acts :
  let w := run acts (activated folders s fs None) in
  subscribers SrcConfiguration w = [CbConfigurationChanged]
  ∧ subscribers SrcTextDocument w = [CbTextDocumentChanged]
  ∧ treeDataProvider w
    = (if defined folders then Some NewTaskTreeDataProvider else None).
Proof.
  intros w. pose proof (activated_reliable_wiring folders s fs acts) as H.
  fold w in H. revert H. unfold activated. rewrite activate_reliable.
  unfold wiring. simpl. intros H. injection H as _ Hl _ Ht _.
  unfold subscribers. rewrite Hl, Ht. by destruct folders.
Qed.

(** What the configuration listener does on a host whose calls return. *)
Lemma configurationChanged_run e w :
  fault w = None →
  run_callback CbConfigurationChanged (PConfig e) w =
  (Ok tt,
   let proxy := default (CString "") (settings w !! "http.proxy") in
   let strictSSL := default (CBool true) (settings w !! "http.proxyStrictSSL") in
   let w1 :=
     set_trace (trace w ++ [FxReadSetting "http.proxy";
                            FxReadSetting "http.proxyStrictSSL";
                            FxHttpConfigure proxy strictSSL])
       (set_httpConfig (Some (proxy, strictSSL)) w) in
   if affectsConfiguration e "taskView.exclude" then
     match treeDataProvider w with
     | Some _ => set_trace (trace w1 ++ [FxRefreshTree]) (set_tasksCache ∅ w1)
     | None => set_tasksCache ∅ w1
     end
   else w1).
Proof.
  intros H. destruct w. simpl in H. subst.
  cbv -[lookup default app affectsConfiguration].
  destruct (affectsConfiguration e "taskView.exclude");
    [destruct treeDataProvider0|]; cbv -[lookup default app];
    rewrite <- ?app_assoc; done.
Qed.

Lemma configuration_change_world folders s fs acts s' e :
  let w := run acts (activated folders s fs None) in
  let proxy := default (CString "") (s' !! "http.proxy") in
  let strictSSL := default (CBool true) (s' !! "http.proxyStrictSSL") in
  let w1 :=
    set_trace (trace w ++ [FxReadSetting "http.proxy";
                           FxReadSetting "http.proxyStrictSSL";
                           FxHttpConfigure proxy strictSSL])
      (set_httpConfig (Some (proxy, strictSSL)) (set_settings s' w)) in
  deliver (ConfigurationChanged s' e) w =
  if affectsConfiguration e "taskView.exclude" then
    match treeDataProvider w with
    | Some _ => set_trace (trace w1 ++ [FxRefreshTree]) (set_tasksCache ∅ w1)
    | None => set_tasksCache ∅ w1
    end
  else w1.
Proof.
  intros w proxy strictSSL w1. simpl.
  destruct (activated_listening folders s fs acts) as (Hs & _ & _).
  fold w in Hs.
  assert (subscribers SrcConfiguration (set_settings s' w)
          = [CbConfigurationChanged]) as Hs' by exact Hs.
  rewrite (fire_one _ _ _ _ Hs'), configurationChanged_run; [done|].
  apply activated_reliable_fault.
Qed.

(** C3, as the code has it.  On a configuration change the proxy settings
    are read again from the store, as it is after the change, and applied
    again.  The tasks cache is emptied exactly when the change affects
    [taskView.exclude], and is left as it was otherwise; the tree view is
    refreshed exactly when the change affects that setting and a tree data
    provider exists. *)
Theorem configuration_change_applied folders s fs acts s' e :
  let w := run acts (activated folders s fs None) in
  let w' := deliver (ConfigurationChanged s' e) w in
  let proxy := default (CString "") (s' !! "http.proxy") in
  let strictSSL := default (CBool true) (s' !! "http.proxyStrictSSL") in
  let affected := affectsConfiguration e "taskView.exclude" in
  httpConfig w' = Some (proxy, strictSSL)
  ∧ trace w' =
      trace w
      ++ [FxReadSetting "http.proxy"; FxReadSetting "http.proxyStrictSSL";
          FxHttpConfigure proxy strictSSL]
      ++ (if affected && defined (treeDataProvider w)
          then [FxRefreshTree] else [])
  ∧ tasksCache w' = (if affected then ∅ else tasksCache w)
  ∧ hoverCache w' = hoverCache w.
Proof.
  intros w w' proxy strictSSL affected. subst w' affected.
  pose proof (configuration_change_world folders s fs acts s' e) as H.
  cbv zeta in H. fold w proxy strictSSL in H. rewrite H.
  destruct (affectsConfiguration e "taskView.exclude");
    [destruct (treeDataProvider w)|]; simpl;
    rewrite <- ?app_assoc, ?app_nil_r; done.
Qed.

(** What the document listener does. *)
Lemma textDocumentChanged_run d w :
  run_callback CbTextDocumentChanged (PDocument d) w =
  (Ok tt, set_hoverCache (delete (doc_uri d) (hoverCache w)) w).
Proof. reflexivity. Qed.

Lemma textDocumentChanged_fold d l w :
  Forall (λ cb, cb = CbTextDocumentChanged) l →
  let w' := foldl (λ w cb, (run_callback cb (PDocument d) w).2) w l in
  tasksCache w' = tasksCache w
  ∧ trace w' = trace w
  ∧ ∀ u, u ≠ doc_uri d → hoverCache w' !! u = hoverCache w !! u.
Proof.
  intros Hall. revert w.
  induction Hall as [|cb l -> _ IH]; intros w; [done|].
  destruct (IH (set_hoverCache (delete (doc_uri d) (hoverCache w)) w))
    as (Ht & Hr & Hh).
  split; [exact Ht|]. split; [exact Hr|].
  intros u Hu. etrans; [exact (Hh u Hu)|]. simpl. by apply lookup_delete_ne.
Qed.

(** C9.  A document change leaves the tasks cache and the trace, and with it
    the tree view, as they were, and keeps the hover scripts of every other
    document; on a host whose calls return it removes the hover scripts of
    the changed document and changes nothing else. *)
Theorem text_change_only_touches_hover folders s fs f acts d :
  let w := run acts (activated folders s fs f) in
  let w' := deliver (TextDocumentChanged d) w in
  tasksCache w' = tasksCache w
  ∧ trace w' = trace w
  ∧ (∀ u, u ≠ doc_uri d → hoverCache w' !! u = hoverCache w !! u)
  ∧ (f = None → w' = set_hoverCache (delete (doc_uri d) (hoverCache w)) w).
Proof.
  intros w w'. subst w'. simpl.
  assert (Forall (λ cb, cb = CbTextDocumentChanged)
            (subscribers SrcTextDocument w)) as Hall.
  { apply Forall_forall. intros cb Hin%subscribers_elem.
    by apply (activated_well_wired folders s fs f acts) in Hin. }
  destruct (textDocumentChanged_fold d _ w Hall) as (? & ? & ?).
  repeat split; try done.
  intros ->. destruct (activated_listening folders s fs acts) as (_ & Hs & _).
  fold w in Hs. by rewrite (fire_one _ _ _ _ Hs), textDocumentChanged_run.
Qed.

(** ** Activation without a workspace *)

Lemma registerAntTaskProvider_undefined w :
  workspaceFolders w = None → registerAntTaskProvider w = (Ok None, w).
Proof.
  intros H. unfold registerAntTaskProvider, mbind, M_bind, gets.
  by rewrite H.
Qed.

Lemma registerExplorer_undefined w :
  workspaceFolders w = None → registerExplorer w = (Ok None, w).
Proof.
  intros H. unfold registerExplorer, mbind, M_bind, gets. by rewrite H.
Qed.

Lemma registerHoverProvider_undefined w :
  workspaceFolders w = None → registerHoverProvider w = (Ok None, w).
Proof.
  intros H. unfold registerHoverProvider, mbind, M_bind, gets. by rewrite H.
Qed.

Lemma preserves_bind_const {A B} (P : World → Prop) (m : M A) (f : A → M B) a :
  (∀ w, P w → m w = (Ok a, w)) → preserves P (f a) → preserves P (m ≫= f).
Proof.
  intros Hm Hf w H. unfold mbind, M_bind. rewrite (Hm w H). by apply Hf.
Qed.

Lemma without_workspace_listener src cb w :
  ¬ watching src → without_workspace w →
  without_workspace (set_listeners (listeners w ++ [(src, cb)]) w).
Proof.
  intros Hsrc (? & ? & ? & Hl & ?). repeat split; try done.
  intros src' cb' Hin. cbn in Hin.
  apply elem_of_app in Hin as [Hin|Hin]; [by eapply Hl|].
  apply list_elem_of_singleton in Hin. by simplify_eq.
Qed.

Lemma without_workspace_json w :
  without_workspace w →
  without_workspace (set_registrations (registrations w ++ [RegJSONProviders]) w).
Proof.
  intros (? & ? & Hr & ? & ?). repeat split; try done.
  intros r Hin. cbn in Hin.
  apply elem_of_app in Hin as [Hin|Hin]; [by apply Hr|].
  by apply list_elem_of_singleton in Hin.
Qed.

Ltac without_workspace_side :=
  first
    [ done
    | intros; apply without_workspace_listener; [by intros []|done]
    | intros; apply without_workspace_json; done ].

Lemma tryInit_without_workspace : preserves without_workspace tryInit.
Proof.
  unfold tryInit.
  eapply preserves_bind_const;
    [intros w H; apply registerAntTaskProvider_undefined, H|].
  eapply preserves_bind_const;
    [intros w H; apply registerExplorer_undefined, H|].
  apply preserves_bind; [preserve; by intros w (? & ? & ? & ? & ?)|intros _].
  eapply preserves_bind_const;
    [intros w H; apply registerHoverProvider_undefined, H|].
  preserve; without_workspace_side.
Qed.

Lemma activate_without_workspace : preserves without_workspace activate.
Proof.
  unfold activate, _activate.
  repeat (apply preserves_bind; [preserve; without_workspace_side|intros ?]).
  apply preserves_catch; [|intros e; preserve; without_workspace_side].
  repeat (apply preserves_bind; [preserve; without_workspace_side|intros ?]).
  apply tryInit_without_workspace.
Qed.

(** C4, as the code has it.  When [workspaceFolders] is undefined, each of
    the three registration functions returns undefined and leaves the world
    as it was; activation registers no watcher, no listener of file or
    folder events, no task provider, tree view or hover provider, and
    returns without throwing, whatever the host does. *)
Theorem undefined_folders_register_nothing s fs f :
  (∀ w, workspaceFolders w = None →
        registerAntTaskProvider w = (Ok None, w)
        ∧ registerExplorer w = (Ok None, w)
        ∧ registerHoverProvider w = (Ok None, w))
  ∧ (activate (initial None s fs f)).1 = Ok tt
  ∧ without_workspace (activated None s fs f).
Proof.
  split; [|split].
  - intros w H.
    auto using registerAntTaskProvider_undefined, registerExplorer_undefined,
      registerHoverProvider_undefined.
  - apply activate_returns.
  - apply activate_without_workspace. repeat split; try done.
    + by intros r Hin%elem_of_nil.
    + by intros src cb Hin%elem_of_nil.
Qed.

(** ** The task provider and the discovery cache *)

Lemma getTasks_returns scope w :
  ∃ ts w', getTasks scope w = (Ok ts, w') ∧ settings w' = settings w.
Proof.
  unfold getTasks, mbind, M_bind, gets. simpl.
  destruct (tasksCache w !! scope); eauto.
Qed.

Lemma getAllTasks_returns scopes w :
  ∃ ts w', getAllTasks scopes w = (Ok ts, w') ∧ settings w' = settings w.
Proof.
  revert w. induction scopes as [|scope rest IH]; intros w; simpl; [by eauto|].
  unfold mbind, M_bind.
  destruct (getTasks_returns scope w) as (ts & w1 & -> & Hs1).
  destruct (IH w1) as (more & w2 & -> & Hs2).
  eexists _, _. split; [reflexivity|]. by rewrite Hs2.
Qed.

(** C6.  The list operation of the task provider returns, and no task whose
    file matches a configured exclusion pattern is in what it returns. *)
Theorem list_respects_exclusions kind w pattern t :
  pattern ∈ exclusions (settings w) →
  glob_match pattern (task_file t) = true →
  ∃ ts w', list_tasks kind w = (Ok ts, w') ∧ t ∉ ts.
Proof.
  intros Hin Hmatch. unfold list_tasks, mbind, M_bind, gets. simpl.
  destruct (getAllTasks_returns (default [] (workspaceFolders w)) w)
    as (all & w' & -> & Hs). simpl.
  eexists _, _. split; [reflexivity|].
  intros Ht%list_elem_of_In%filter_In. destruct Ht as [_ Ht].
  apply andb_true_iff in Ht as [_ Hex]. apply negb_true_iff in Hex.
  assert (excluded (exclusions (settings w')) t = true) as Hyes; [|congruence].
  apply existsb_exists. exists pattern. split; [|done].
  apply list_elem_of_In. by rewrite Hs.
Qed.

(** Only a query of a scope gives the scope an entry. *)
Lemma run_callback_tasks_absent scope cb arg :
  preserves (λ w, tasksCache w !! scope = None) (run_callback cb arg).
Proof. preserve; done. Qed.

Lemma run_callback_hover_absent scope cb arg :
  preserves (λ w, hoverCache w !! scope = None) (run_callback cb arg).
Proof.
  preserve; try done.
  intros w H. simpl. by apply lookup_delete_None; right.
Qed.

Lemma step_tasks_absent scope a w :
  a ≠ QueryTasks scope →
  tasksCache w !! scope = None → tasksCache (step a w) !! scope = None.
Proof.
  intros Ha. destruct a as [ev|scope'|scope']; simpl.
  - apply (deliver_preserves (λ w, tasksCache w !! scope = None)); try done.
    intros. apply run_callback_tasks_absent.
  - intros H. unfold getTasks, mbind, M_bind, gets. simpl.
    destruct (tasksCache w !! scope') eqn:E; simpl; [done|].
    rewrite lookup_insert_ne; [done|]. by intros ->.
  - intros H. unfold getHoverScripts, mbind, M_bind, gets. simpl.
    by destruct (hoverCache w !! scope').
Qed.

Lemma step_hover_absent scope a w :
  a ≠ QueryHover scope →
  hoverCache w !! scope = None → hoverCache (step a w) !! scope = None.
Proof.
  intros Ha. destruct a as [ev|scope'|scope']; simpl.
  - apply (deliver_preserves (λ w, hoverCache w !! scope = None)); try done.
    intros. apply run_callback_hover_absent.
  - intros H. unfold getTasks, mbind, M_bind, gets. simpl.
    by destruct (tasksCache w !! scope').
  - intros H. unfold getHoverScripts, mbind, M_bind, gets. simpl.
    destruct (hoverCache w !! scope') eqn:E; simpl; [done|].
    rewrite lookup_insert_ne; [done|]. by intros ->.
Qed.

Lemma run_tasks_absent scope acts w :
  QueryTasks scope ∉ acts →
  tasksCache w !! scope = None → tasksCache (run acts w) !! scope = None.
Proof.
  revert w. induction acts as [|a acts IH]; intros w Hno H; [done|].
  apply not_elem_of_cons in Hno as [Ha Hno].
  simpl. apply IH; [done|]. by apply step_tasks_absent.
Qed.

Lemma run_hover_absent scope acts w :
  QueryHover scope ∉ acts →
  hoverCache w !! scope = None → hoverCache (run acts w) !! scope = None.
Proof.
  revert w. induction acts as [|a acts IH]; intros w Hno H; [done|].
  apply not_elem_of_cons in Hno as [Ha Hno].
  simpl. apply IH; [done|]. by apply step_hover_absent.
Qed.

(** A query of a scope that has no entry parses. *)
Lemma getTasks_absent scope w :
  tasksCache w !! scope = None →
  getTasks scope w =
  (Ok (discover (files w) scope),
   set_tasksCache (<[scope:=discover (files w) scope]> (tasksCache w))
     (set_trace (trace w ++ [FxParse scope]) w)).
Proof. intros H. unfold getTasks, mbind, M_bind, gets. by rewrite H. Qed.

Lemma getHoverScripts_absent scope w :
  hoverCache w !! scope = None →
  getHoverScripts scope w =
  (Ok (discover (files w) scope),
   set_hoverCache (<[scope:=discover (files w) scope]> (hoverCache w))
     (set_trace (trace w ++ [FxParse scope]) w)).
Proof. intros H. unfold getHoverScripts, mbind, M_bind, gets. by rewrite H. Qed.

(** C7.  After an event that invalidates a scope has been delivered, and
    until the scope is queried again, whatever else happens, the scope has
    no entry in the cache: the next query parses the files as they then are,
    records the result and returns it, not what the cache held before the
    event.  This holds of the tasks cache and of the hover scripts cache. *)
Theorem invalidation_forces_parsing l s fs before ev between scope :
  let w := run before (activated (Some l) s fs None) in
  let w' := run between (deliver ev w) in
  (invalidates_tasks ev w → QueryTasks scope ∉ between →
   tasksCache w' !! scope = None
   ∧ getTasks scope w' =
     (Ok (discover (files w') scope),
      set_tasksCache (<[scope:=discover (files w') scope]> (tasksCache w'))
        (set_trace (trace w' ++ [FxParse scope]) w')))
  ∧ (invalidates_hover ev w scope → QueryHover scope ∉ between →
     hoverCache w' !! scope = None
     ∧ getHoverScripts scope w' =
       (Ok (discover (files w') scope),
        set_hoverCache (<[scope:=discover (files w') scope]> (hoverCache w'))
          (set_trace (trace w' ++ [FxParse scope]) w'))).
Proof.
  intros w w'.
  assert (watched_change ev w →
          hoverCache (deliver ev w) = ∅ ∧ tasksCache (deliver ev w) = ∅)
    as Hwatched.
  { intros Hev.
    destruct (watched_change_invalidates l s fs ev w) as (Hh & Ht & _);
      [apply activated_reliable_wiring|done|done]. }
  split; intros Hev Hno.
  - assert (tasksCache (deliver ev w) !! scope = None) as H0.
    { destruct ev as [path c|path c|path|folders|s' e|d];
        try (by destruct (Hwatched Hev) as [_ ->]).
      simpl in Hev.
      pose proof (configuration_change_world (Some l) s fs before s' e) as H.
      cbv zeta in H. fold w in H. rewrite H, Hev.
      by destruct (treeDataProvider w). }
    assert (tasksCache w' !! scope = None) as H
      by (by apply run_tasks_absent).
    split; [done|]. by apply getTasks_absent.
  - assert (hoverCache (deliver ev w) !! scope = None) as H0.
    { destruct ev as [path c|path c|path|folders|s' e|d];
        try (by destruct (Hwatched Hev) as [-> _]).
      simpl in Hev. subst scope.
      destruct (activated_listening (Some l) s fs before) as (_ & Hs & _).
      fold w in Hs. simpl.
      rewrite (fire_one _ _ _ _ Hs), textDocumentChanged_run. simpl.
      apply lookup_delete_eq. }
    assert (hoverCache w' !! scope = None) as H
      by (by apply run_hover_absent).
    split; [done|]. by apply getHoverScripts_absent.
Qed.

(** * Further properties of [extension.ts] *)

(** ** What the callbacks never do *)

Lemma events_never_rewire_fields acts w :
  watchers (run acts w) = watchers w
  ∧ listeners (run acts w) = listeners w
  ∧ registrations (run acts w) = registrations w
  ∧ treeDataProvider (run acts w) = treeDataProvider w
  ∧ logOutputChannel (run acts w) = logOutputChannel w
  ∧ subscriptions (run acts w) = subscriptions w
  ∧ disposables (run acts w) = disposables w.
Proof.
  pose proof (run_wiring acts w) as Hw. unfold wiring in Hw.
  injection Hw as -> -> -> -> ->.
  assert (∀ x, (subscriptions w, disposables w) = x →
               (subscriptions (run acts w), disposables (run acts w)) = x)
    as Hs.
  { intros x. apply (run_preserves (λ w, (subscriptions w, disposables w) = x)).
    intros a w0. destruct a as [ev|scope|scope]; simpl.
    - apply (deliver_preserves
               (λ w, (subscriptions w, disposables w) = x)); try done.
      intros cb arg. preserve; done.
    - revert w0.
      change (preserves (λ w, (subscriptions w, disposables w) = x)
                (getTasks scope)).
      preserve; done.
    - revert w0.
      change (preserves (λ w, (subscriptions w, disposables w) = x)
                (getHoverScripts scope)).
      preserve; done. }
  specialize (Hs _ eq_refl). injection Hs as -> ->. done.
Qed.

(** X3.  No event and no query registers or removes anything: watchers,
    listeners, providers, the tree data provider, the output channel, the
    subscriptions of the context and the local array of [activate] are the
    same after any run of events and queries, in any world. *)
Theorem events_never_rewire acts w :
  let w' := run acts w in
  watchers w' = watchers w
  ∧ listeners w' = listeners w
  ∧ registrations w' = registrations w
  ∧ treeDataProvider w' = treeDataProvider w
  ∧ logOutputChannel w' = logOutputChannel w
  ∧ subscriptions w' = subscriptions w
  ∧ disposables w' = disposables w.
Proof. apply events_never_rewire_fields. Qed.

(** ** What each call hands back *)

Lemma returns_bind_ret {A B} (m : M A) (b : B) :
  returns (m ≫= λ _, mret b) (λ x, x = b).
Proof.
  intros w a w' H. unfold mbind, M_bind, mret, M_ret in H.
  destruct (m w) as [[a0|e] w0]; by simplify_eq.
Qed.

Lemma returns_subscribe src cb :
  returns (subscribe src cb) (λ d, d = DispListener src).
Proof.
  intros w a w' H.
  unfold subscribe, mbind, M_bind, external, modify, mret, M_ret in H.
  destruct (fault w) as [[[|n] e]|]; by simplify_eq.
Qed.

Lemma preserves_bind_returns {A B} (P : World → Prop) (m : M A)
    (f : A → M B) (R : A → Prop) :
  preserves P m → returns m R → (∀ a, R a → preserves P (f a)) →
  preserves P (m ≫= f).
Proof.
  intros Hm Hr Hf w H. specialize (Hm w H). unfold mbind, M_bind.
  destruct (m w) as [[a|e] w'] eqn:E; simpl in *; [|done].
  by apply (Hf a (Hr w a w' E)).
Qed.

(** As [preserve_step], with what is known of the value bound when the call
    is one of those that hand back a handle. *)
Ltac preserve_handle :=
  lazymatch goal with
  | |- preserves _ (subscribe ?src _ ≫= _) =>
      eapply preserves_bind_returns;
        [|apply returns_subscribe|intros ? ->]
  | |- preserves _ ((_ ≫= λ _, mret ?b) ≫= _) =>
      eapply preserves_bind_returns;
        [|apply returns_bind_ret|intros ? ->]
  end.

Ltac preserve_all :=
  repeat first
    [ progress unfold workspace_onDidChangeWorkspaceFolders,
        workspace_onDidChangeConfiguration, workspace_onDidChangeTextDocument,
        commands_registerCommand, window_createTreeView,
        languages_registerHoverProvider, addJSONProviders,
        workspace_registerTaskProvider, window_createOutputChannel
    | preserve_handle
    | preserve_step ].

(** ** Handles that are never kept *)

Lemma tracked_push_subscription d w :
  tracked d → Forall tracked (kept_handles w) →
  Forall tracked (kept_handles (set_subscriptions (subscriptions w ++ [d]) w)).
Proof.
  unfold kept_handles. simpl. rewrite !Forall_app, Forall_singleton. tauto.
Qed.

Lemma tracked_push_disposable d w :
  tracked d → Forall tracked (kept_handles w) →
  Forall tracked (kept_handles (set_disposables (disposables w ++ [d]) w)).
Proof.
  unfold kept_handles. simpl. rewrite !Forall_app, Forall_singleton. tauto.
Qed.

Lemma activate_tracked :
  preserves (λ w, Forall tracked (kept_handles w)) activate.
Proof.
  unfold activate, _activate, tryInit, registerAntTaskProvider,
    registerExplorer, registerHoverProvider, watch.
  preserve_all.
  all: try done.
  all: try (intros; apply tracked_push_subscription; [|done]; simpl).
  all: try (intros; apply tracked_push_disposable; [|done]; simpl).
  all: try done.
  intros w. unfold kept_handles. simpl. rewrite !Forall_app. intros [? _].
  by split.
Qed.

(** X1.  The handle of the ant task provider, the handle of the
    [taskView.showOutput] command and the handles of the watchers' change,
    delete and create listeners are never given to the extension context
    nor put in the local array of [activate], whatever the host does; yet in
    a workspace, on a host whose calls return, the provider, the command
    and the listeners are registered. *)
Theorem registrations_never_tracked folders s fs f acts :
  let w := run acts (activated folders s fs f) in
  (∀ d, d ∈ subscriptions w ++ disposables w →
        (∀ type, d ≠ DispTaskProvider type)
        ∧ d ≠ DispCommand "taskView.showOutput"
        ∧ (∀ watcher k, d ≠ DispListener (SrcWatcher watcher k)))
  ∧ (f = None → defined folders = true →
     RegTaskProvider "ant" NewAntTaskProvider ∈ registrations w
     ∧ CbShowOutput ∈ subscribers (SrcCommand "taskView.showOutput") w
     ∧ ∀ watcher k, watcher < 3 →
         CbInvalidateScriptCaches ∈ subscribers (SrcWatcher watcher k) w).
Proof.
  intros w.
  destruct (events_never_rewire_fields acts (activated folders s fs f))
    as (Hw & Hl & Hr & _ & _ & Hs & Hd).
  fold w in Hw, Hl, Hr, Hs, Hd. split.
  - intros d Hin. rewrite Hs, Hd in Hin.
    assert (Forall tracked (kept_handles (activated folders s fs f))) as Hall.
    { apply activate_tracked. by apply Forall_nil. }
    rewrite Forall_forall in Hall. specialize (Hall d Hin).
    repeat split; intros; intros ->; done.
  - intros -> Hdef. destruct folders as [l|]; [|done].
    unfold subscribers. rewrite Hl, Hr. unfold activated.
    rewrite activate_reliable. simpl. split; [apply list_elem_of_here|].
    split; [apply list_elem_of_here|].
    intros watcher k Hlt.
    destruct k; destruct watcher as [|[|[|?]]]; try lia;
      apply list_elem_of_here.
Qed.

(** ** The command that shows the output channel *)

Lemma returns_createOutputChannel name :
  returns (window_createOutputChannel name) (λ channel, channel = name).
Proof. apply returns_bind_ret. Qed.

Lemma output_channel_set_listener src cb w :
  (src = SrcCommand "taskView.showOutput" → cb = CbShowOutput) →
  output_channel_set w →
  output_channel_set (set_listeners (listeners w ++ [(src, cb)]) w).
Proof.
  intros Hcb [Hc Hl]. split; [done|]. intros cb' Hin. cbn in Hin.
  apply elem_of_app in Hin as [Hin|Hin]; [by apply Hl|].
  apply list_elem_of_singleton in Hin. simplify_eq. by apply Hcb.
Qed.

Lemma preserves_modify_then {B} (P J : World → Prop) (f : World → World)
    (k : M B) :
  (∀ w, P w → J (f w)) → preserves J k → (∀ w, J w → P w) →
  preserves P (modify f ≫= λ _, k).
Proof. intros HPJ Hk HJP w H. apply HJP. exact (Hk (f w) (HPJ w H)). Qed.

Lemma activate_output_command :
  preserves output_command_ready activate.
Proof.
  unfold activate.
  apply preserves_bind; [preserve; done|intros _].
  apply preserves_bind; [preserve; done|intros _].
  apply preserves_catch; [|intros e; preserve; done].
  unfold _activate.
  eapply preserves_bind_returns;
    [preserve; done|apply returns_createOutputChannel|intros channel ->].
  (* from here on the channel is set *)
  apply (preserves_modify_then _ output_channel_set).
  - intros w Hw. split; [done|]. intros cb Hin. by apply Hw.
  - unfold tryInit, registerAntTaskProvider, registerExplorer,
      registerHoverProvider, watch.
    preserve_all; try done;
      intros; apply output_channel_set_listener; try done;
      intros; simplify_eq.
  - intros w [Hc Hl] cb Hin. split; [by apply Hl|done].
Qed.

(** X2.  Whenever the [taskView.showOutput] command is registered, the log
    output channel has been created: the callback of the command is the one
    that shows the channel, it finds the channel [Task View], and what it
    does is to ask the host to show it.  This holds whatever the host does
    during activation and whatever happens afterwards. *)
Theorem showOutput_command_ready folders s fs f acts cb arg :
  let w := run acts (activated folders s fs f) in
  cb ∈ subscribers (SrcCommand "taskView.showOutput") w →
  cb = CbShowOutput
  ∧ logOutputChannel w = Some "Task View"
  ∧ run_callback cb arg w = outputChannel_show "Task View" w.
Proof.
  intros w Hin. apply subscribers_elem in Hin.
  destruct (events_never_rewire_fields acts (activated folders s fs f))
    as (_ & Hl & _ & _ & Hc & _).
  fold w in Hl, Hc. rewrite Hl in Hin.
  assert (output_command_ready (activated folders s fs f)) as Hready.
  { apply activate_output_command. intros cb' Hin'.
    by apply elem_of_nil in Hin'. }
  destruct (Hready cb Hin) as [-> Hchannel].
  rewrite Hc. split; [done|]. split; [done|].
  cbv [run_callback logOutputChannel_show mbind M_bind gets].
  by rewrite Hc, Hchannel.
Qed.

(** ** The proxy configuration *)

(** What [configureHttpRequest] does on a host whose calls return. *)
Lemma configureHttpRequest_reliable w :
  fault w = None →
  configureHttpRequest w =
  (Ok tt,
   let proxy := default (CString "") (settings w !! "http.proxy") in
   let strictSSL := default (CBool true) (settings w !! "http.proxyStrictSSL") in
   set_trace (trace w ++ [FxReadSetting "http.proxy";
                          FxReadSetting "http.proxyStrictSSL";
                          FxHttpConfigure proxy strictSSL])
     (set_httpConfig (Some (proxy, strictSSL)) w)).
Proof.
  intros H. destruct w. simpl in H. subst.
  unfold configureHttpRequest, workspace_getConfiguration, wc_get,
    httpRequest_configure, emit, external, mbind, M_bind, gets, modify,
    mret, M_ret.
  cbn -[lookup default app]. by rewrite <- !app_assoc.
Qed.

Lemma run_callback_proxy cb arg :
  preserves (λ w, fault w = None ∧ proxy_in_sync w) (run_callback cb arg).
Proof.
  assert (preserves (λ w, fault w = None ∧ proxy_in_sync w)
            configureHttpRequest) as Hcfg.
  { intros w [Hf Hs]. by rewrite (configureHttpRequest_reliable w Hf). }
  destruct cb; cbn [run_callback];
    try (apply preserves_bind; [exact Hcfg|intros _]);
    preserve; try done;
    apply preserves_external_reliable; by intros ? [? ?].
Qed.

Lemma step_proxy a acts folders s fs :
  proxy_in_sync (run acts (activated folders s fs None)) →
  proxy_in_sync (step a (run acts (activated folders s fs None))).
Proof.
  intros H. pose proof (activated_reliable_fault folders s fs acts) as Hf.
  set (w := run acts (activated folders s fs None)) in *.
  assert (∀ src arg w0, fault w0 = None ∧ proxy_in_sync w0 →
            proxy_in_sync (fire src arg w0)) as Hfire.
  { intros src arg w0 H0.
    by apply (fire_preserves (λ w, fault w = None ∧ proxy_in_sync w)
                run_callback_proxy src arg w0). }
  assert (∀ k path w0, fault w0 = None ∧ proxy_in_sync w0 →
            proxy_in_sync (fire_watchers k path w0)) as Hwatch.
  { intros k path w0 H0.
    by apply (fire_watchers_preserves
                (λ w, fault w = None ∧ proxy_in_sync w)
                run_callback_proxy k path w0). }
  destruct a as [[path c|path c|path|fo|s' e|d]|scope|scope]; simpl.
  - by apply Hwatch.
  - by apply Hwatch.
  - by apply Hwatch.
  - by apply Hfire.
  - pose proof (configuration_change_world folders s fs acts s' e) as Hc.
    cbv zeta in Hc. fold w in Hc. simpl in Hc. rewrite Hc.
    destruct (affectsConfiguration e "taskView.exclude");
      [destruct (treeDataProvider w)|]; done.
  - by apply Hfire.
  - unfold getTasks, mbind, M_bind, gets. simpl.
    by destruct (tasksCache w !! scope).
  - unfold getHoverScripts, mbind, M_bind, gets. simpl.
    by destruct (hoverCache w !! scope).
Qed.

(** X4.  The proxy configuration applied to the HTTP client never goes
    stale: after activation and after every later event, a change of the
    settings included, it is what the store holds under [http.proxy] and
    [http.proxyStrictSSL], with the empty proxy and strict SSL for a
    missing key.  The host's calls are taken to return. *)
Theorem proxy_configuration_in_sync folders s fs acts :
  let w := run acts (activated folders s fs None) in
  httpConfig w
  = Some (default (CString "") (settings w !! "http.proxy"),
          default (CBool true) (settings w !! "http.proxyStrictSSL")).
Proof.
  intros w. subst w. induction acts as [|a acts IH] using rev_ind.
  - unfold activated. by rewrite activate_reliable.
  - unfold run. rewrite foldl_app. simpl. by apply step_proxy.
Qed.

(** ** The tree view and its provider *)

Lemma no_tree_consistent w : no_tree w → tree_consistent w.
Proof.
  intros (Hn & Hv & Ht). split; [|done]. rewrite Hn. split; [|done].
  by intros [? ?].
Qed.

Lemma tree_view_registered_other r w :
  (∀ id p b, r ≠ RegTreeView id p b) →
  tree_view_registered (set_registrations (registrations w ++ [r]) w)
  ↔ tree_view_registered w.
Proof.
  intros Hr. unfold tree_view_registered. simpl. split.
  - intros (p & b & Hin). exists p, b.
    apply elem_of_app in Hin as [Hin|Hin]; [done|].
    apply list_elem_of_singleton in Hin. by destruct (Hr "taskView" p b).
  - intros (p & b & Hin). exists p, b. apply elem_of_app. by left.
Qed.

Lemma not_refresh_app fx w :
  fx ≠ FxRefreshTree → FxRefreshTree ∉ trace w →
  FxRefreshTree ∉ trace w ++ [fx].
Proof.
  intros Hfx Ht Hin. apply elem_of_app in Hin as [Hin|Hin]; [done|].
  apply list_elem_of_singleton in Hin. congruence.
Qed.

(** The three ways [registerExplorer] can end. *)
Lemma registerExplorer_cases w :
  let (r, w') := registerExplorer w in
  treeDataProvider w' = treeDataProvider w
  ∧ trace w' = trace w
  ∧ match r with
    | Ok (Some p) =>
        registrations w' = registrations w ++ [RegTreeView "taskView" p true]
    | _ => registrations w' = registrations w
    end.
Proof.
  destruct w. unfold registerExplorer, mbind, M_bind, gets. simpl.
  destruct workspaceFolders0; [|done]. simpl.
  destruct fault0 as [[[|[|n]] e]|]; done.
Qed.

Ltac tree_side :=
  first
    [ done
    | intros ? (? & ? & ?); repeat split; try done;
      first [ by rewrite tree_view_registered_other
            | by apply not_refresh_app ] ].

Lemma tree_consistent_register r w :
  (∀ id p b, r ≠ RegTreeView id p b) → tree_consistent w →
  tree_consistent (set_registrations (registrations w ++ [r]) w).
Proof.
  intros Hr [Hiff Ht]. unfold tree_consistent.
  by rewrite (tree_view_registered_other r w Hr).
Qed.

Lemma tree_consistent_emit fx w :
  fx ≠ FxRefreshTree → tree_consistent w →
  tree_consistent (set_trace (trace w ++ [fx]) w).
Proof.
  intros Hfx [Hiff Ht]. split; [done|]. simpl. intros Hin.
  apply elem_of_app in Hin as [Hin|Hin]; [by apply Ht|].
  apply list_elem_of_singleton in Hin. congruence.
Qed.

Ltac tree_consistent_side :=
  first
    [ done
    | intros; by apply tree_consistent_register
    | intros; by apply tree_consistent_emit ].

Lemma leads_bind {A B} (P Q : World → Prop) (m : M A) (f : A → M B) :
  preserves P m → (∀ w, P w → Q w) → (∀ a w, P w → Q (f a w).2) →
  ∀ w, P w → Q ((m ≫= f) w).2.
Proof.
  intros Hm HPQ Hf w H. specialize (Hm w H). unfold mbind, M_bind.
  destruct (m w) as [[a|e] w']; simpl in *; auto.
Qed.

Lemma leads_catch {A} (P Q : World → Prop) (m : M A) h :
  (∀ w, P w → Q (m w).2) → (∀ e, preserves Q (h e)) →
  ∀ w, P w → Q (catch m h w).2.
Proof.
  intros Hm Hh w H. specialize (Hm w H). unfold catch.
  destruct (m w) as [[a|e] w']; simpl in *; [done|by apply Hh].
Qed.

(** From the registration of the explorer on, the provider is kept exactly
    when the view was created. *)
Lemma registerExplorer_then {B} (rest : M B) :
  preserves tree_consistent rest →
  ∀ w, no_tree w →
       tree_consistent
         ((p ← registerExplorer; modify (set_treeDataProvider p);; rest) w).2.
Proof.
  intros Hrest w (Hn & Hv & Ht).
  pose proof (registerExplorer_cases w) as Hcases.
  unfold mbind at 1. unfold M_bind at 1.
  destruct (registerExplorer w) as [[[p|]|e] w'];
    destruct Hcases as (Hp & Htr & Hr).
  - apply Hrest. split; simpl.
    + split; [|by eauto]. intros _. exists p, true. simpl. rewrite Hr.
      apply elem_of_app. right. apply list_elem_of_here.
    + intros Hin. by rewrite Htr in Hin.
  - apply Hrest. apply no_tree_consistent. split; [done|]. split.
    + unfold tree_view_registered. simpl. by rewrite Hr.
    + simpl. by rewrite Htr.
  - simpl. apply no_tree_consistent. split; [by rewrite Hp|]. split.
    + unfold tree_view_registered. by rewrite Hr.
    + by rewrite Htr.
Qed.

Lemma activate_tree_consistent w : no_tree w → tree_consistent (activate w).2.
Proof.
  revert w. unfold activate.
  apply leads_bind; [preserve; tree_side|apply no_tree_consistent|intros _].
  apply leads_bind; [preserve; tree_side|apply no_tree_consistent|intros _].
  apply leads_catch; [|intros e; preserve; tree_consistent_side].
  unfold _activate.
  do 6 (apply leads_bind;
        [preserve_all; tree_side|apply no_tree_consistent|intros ?]).
  unfold tryInit.
  apply leads_bind;
    [unfold registerAntTaskProvider, watch; preserve_all; tree_side
    |apply no_tree_consistent|intros _].
  apply registerExplorer_then.
  unfold registerHoverProvider. preserve_all; tree_consistent_side.
Qed.

Lemma preserves_gets_no_provider {B} (P : World → Prop)
    (f : option TaskTreeDataProvider → M B) :
  (∀ w, P w → treeDataProvider w = None) → preserves P (f None) →
  preserves P (gets treeDataProvider ≫= f).
Proof.
  intros Hn Hf w H. unfold mbind, M_bind, gets. simpl.
  rewrite (Hn w H). by apply Hf.
Qed.

(** Without a provider, nothing refreshes the tree. *)
Lemma step_never_refreshes a w :
  treeDataProvider w = None ∧ FxRefreshTree ∉ trace w →
  treeDataProvider (step a w) = None ∧ FxRefreshTree ∉ trace (step a w).
Proof.
  set (P := λ w, treeDataProvider w = None ∧ FxRefreshTree ∉ trace w).
  assert (∀ fx w, fx ≠ FxRefreshTree → P w →
                  P (set_trace (trace w ++ [fx]) w)) as Hemit.
  { intros fx w0 Hfx [Hn Ht]. split; [done|]. by apply not_refresh_app. }
  assert (∀ cb arg, preserves P (run_callback cb arg)) as Hcb.
  { intros cb arg.
    repeat first
      [ lazymatch goal with
        | |- preserves _ (gets treeDataProvider ≫= _) =>
            apply preserves_gets_no_provider; [by intros ? [? ?]|]
        end
      | preserve_step ];
      first [done | by intros; apply Hemit]. }
  destruct a as [ev|scope|scope]; simpl.
  - by apply (deliver_preserves P).
  - revert w. change (preserves P (getTasks scope)).
    preserve; first [done | by intros; apply Hemit].
  - revert w. change (preserves P (getHoverScripts scope)).
    preserve; first [done | by intros; apply Hemit].
Qed.

(** X5.  The tree data provider is kept exactly when the tree view
    [taskView] was created, and the tree is never refreshed unless the view
    exists: whatever the host does during activation, and whatever events
    and queries follow. *)
Theorem tree_refresh_only_with_view folders s fs f acts :
  let w := run acts (activated folders s fs f) in
  (is_Some (treeDataProvider w) ↔ tree_view_registered w)
  ∧ (FxRefreshTree ∈ trace w → tree_view_registered w).
Proof.
  intros w.
  destruct (events_never_rewire_fields acts (activated folders s fs f))
    as (_ & _ & Hr & Hp & _).
  fold w in Hr, Hp.
  assert (tree_consistent (activated folders s fs f)) as [Hiff Ht].
  { apply activate_tree_consistent. split; [done|]. split.
    - intros (p & b & Hin). by apply elem_of_nil in Hin.
    - apply not_elem_of_nil. }
  assert (tree_view_registered w ↔
          tree_view_registered (activated folders s fs f)) as Hv.
  { unfold tree_view_registered. by rewrite Hr. }
  split; [by rewrite Hp, Hv|].
  rewrite Hv. intros Hin.
  destruct (treeDataProvider (activated folders s fs f)) as [p|] eqn:E.
  - apply Hiff. by eexists.
  - exfalso.
    assert (treeDataProvider w = None ∧ FxRefreshTree ∉ trace w) as [_ Hno];
      [|done].
    apply (run_preserves
             (λ w, treeDataProvider w = None ∧ FxRefreshTree ∉ trace w)).
    + intros a w0. apply step_never_refreshes.
    + split; [done|]. intros Hin0. apply Ht in Hin0. apply Hiff in Hin0.
      by destruct Hin0.
Qed.

(** ** Activation completes or reports *)










(** ** How often a file change refreshes the tree *)

Lemma invalidated_twice w :
  tasksCache (invalidated w) = ∅ ∧ hoverCache (invalidated w) = ∅.
Proof. destruct (invalidated_caches w). done. Qed.

(** X7.  In an activated workspace a file event runs the invalidation once
    for each watcher whose pattern matches the path: the tree is refreshed
    that many times, never more; both caches are emptied when a pattern
    matches, and an event on a path that no pattern matches changes
    nothing but the files.  The host's calls are taken to return. *)
Theorem file_event_refreshes_per_match l s fs acts k path v :
  let w := run acts (activated (Some l) s fs None) in
  let w' := fire_watchers k path (set_files v w) in
  let n := length (List.filter (λ pattern, glob_match pattern path)
                     (watchers w)) in
  (n ≤ 3)%nat
  ∧ trace w' = trace w ++ replicate n FxRefreshTree
  ∧ ((0 < n)%nat → tasksCache w' = ∅ ∧ hoverCache w' = ∅)
  ∧ (n = 0%nat → w' = set_files v w).
Proof.
  intros w w' n. subst w' n.
  assert (wired_as l s fs (set_files v w)) as Hv
    by apply activated_reliable_wiring.
  rewrite (fire_watchers_wired l s fs k path _ Hv).
  destruct (wired_fields l s fs _ Hv) as (Hw & Ht & _).
  change (watchers (set_files v w)) with (watchers w) in Hw. rewrite Hw.
  assert (∀ w0, wired_as l s fs w0 →
            trace (invalidated w0) = trace w0 ++ [FxRefreshTree]) as Hinv.
  { intros w0 (_ & Hp & _)%wired_fields. by rewrite (invalidated_trace w0 _ Hp). }
  pose proof (Hinv _ Hv) as H1.
  pose proof (Hinv _ (wired_invalidated l s fs _ Hv)) as H2.
  pose proof (Hinv _ (wired_invalidated l s fs _
                        (wired_invalidated l s fs _ Hv))) as H3.
  simpl.
  destruct (glob_match "**/[Bb]uild.xml" path);
  destruct (glob_match "**/package.json" path);
  destruct (glob_match "**/.vscode/tasks.json" path); simpl;
    (split; [lia|]); (split; [|split; [|done || (intros ?; lia)]]);
    rewrite ?H3, ?H2, ?H1, <- ?app_assoc, ?app_nil_r; try done;
    try (intros ?; lia); intros _; apply invalidated_twice.
Qed.

(** ** Activation without a workspace *)


End Host.

(** * Examples

    The theorems above at concrete inputs, with [suffix_glob] as the host's
    matcher and [manifest_scripts] as the parser. *)

(** A change of [/ws/package.json] in a workspace whose caches are filled. *)
Lemma watched_events_invalidate_example :
  let w := run suffix_glob manifest_scripts
             [QueryTasks "/ws"; QueryHover "/ws/package.json"]
             (activated (Some ["/ws"]) ∅ {["/ws/package.json" := "tsc"]} None) in
  let w' := deliver suffix_glob (FileChanged "/ws/package.json" "tsc -p .") w in
  tasksCache w ≠ ∅
  ∧ hoverCache w' = ∅ ∧ tasksCache w' = ∅
  ∧ ∃ n, trace w' = trace w ++ replicate (S n) FxRefreshTree.
Proof.
  split; [by vm_compute|].
  apply (proj2 (proj2 (watched_events_invalidate suffix_glob manifest_scripts))
           ["/ws"] ∅ {["/ws/package.json" := "tsc"]}
           [QueryTasks "/ws"; QueryHover "/ws/package.json"]
           (FileChanged "/ws/package.json" "tsc -p .")).
  exists "**/package.json". split; [|reflexivity].
  vm_compute. apply list_elem_of_further, list_elem_of_here.
Defined.

Lemma watchers_created_example :
  subscribers (SrcWatcher 1 FsDelete) (activated (Some ["/ws"]) ∅ ∅ None)
  = [CbInvalidateScriptCaches].
Proof.
  apply (proj2 (watchers_created "/ws" [] ∅ ∅) 1 "**/package.json").
  reflexivity.
Defined.

(** A host that throws at its fourth call: the watcher is not created, the
    error is on the console and [activate] has returned. *)
Lemma activate_never_throws_example :
  let w := initial (Some ["/ws"]) ∅ ∅ (Some (3, "boom")) in
  (_activate (set_subscriptions [DispAll] w)).1 = Throw "boom"
  ∧ (activate w).1 = Ok tt
  ∧ FxConsoleError "boom" ∈ trace (activate w).2.
Proof.
  split; [reflexivity|]. split; [apply activate_never_throws|].
  vm_compute. apply list_elem_of_further, list_elem_of_here.
Defined.

Lemma showOutput_read_and_shown_example :
  let w := activated (Some ["/ws"]) {["taskView.showOutput" := CBool true]} ∅
             None in
  logOutputChannel w = Some "Task View"
  ∧ FxReadSetting "taskView.showOutput" ∈ trace w
  ∧ (FxShowChannel "Task View" ∈ trace w
     ↔ ({["taskView.showOutput" := CBool true]} : gmap string CfgVal)
         !! "taskView.showOutput" = Some (CBool true)).
Proof.
  apply (showOutput_read_and_shown (Some ["/ws"])
           {["taskView.showOutput" := CBool true]} ∅).
  intros v H. vm_compute in H. injection H as <-. by exists true.
Defined.

Lemma text_change_only_touches_hover_example :
  let d := mkTextDocument "/ws/package.json" "json" "file" in
  let w := run suffix_glob manifest_scripts
             [QueryTasks "/ws"; QueryHover "/ws/package.json"]
             (activated (Some ["/ws"]) ∅ {["/ws/package.json" := "tsc"]} None) in
  deliver suffix_glob (TextDocumentChanged d) w
  = set_hoverCache (delete "/ws/package.json" (hoverCache w)) w.
Proof.
  intros d w.
  apply (text_change_only_touches_hover suffix_glob manifest_scripts
           (Some ["/ws"]) ∅ {["/ws/package.json" := "tsc"]} None
           [QueryTasks "/ws"; QueryHover "/ws/package.json"] d).
  reflexivity.
Defined.

Lemma undefined_folders_register_nothing_example :
  registerExplorer (initial None ∅ ∅ (Some (5, "boom")))
  = (Ok None, initial None ∅ ∅ (Some (5, "boom"))).
Proof.
  apply (proj1 (undefined_folders_register_nothing ∅ ∅ None)
           (initial None ∅ ∅ (Some (5, "boom")))).
  reflexivity.
Defined.

(** The folder [/b] is excluded: its script is not listed. *)
Lemma list_respects_exclusions_example :
  let w := initial (Some ["/ws"; "/b"])
             {["taskView.exclude" := CStrings ["**/b/package.json"]]}
             {["/ws/package.json" := "tsc"; "/b/package.json" := "make"]}
             None in
  let t := mkTask npm "build" "/b/package.json" "make" ((0, 0), (0, 0)) in
  ∃ ts w', list_tasks suffix_glob manifest_scripts npm w = (Ok ts, w') ∧ t ∉ ts.
Proof.
  intros w t.
  apply (list_respects_exclusions suffix_glob manifest_scripts npm w
           "**/b/package.json" t).
  - vm_compute. apply list_elem_of_here.
  - reflexivity.
Defined.

(** The cache holds the script [tsc]; the manifest changes; the next query
    parses the new manifest. *)
Lemma invalidation_forces_parsing_example :
  let w := run suffix_glob manifest_scripts [QueryTasks "/ws"]
             (activated (Some ["/ws"]) ∅ {["/ws/package.json" := "tsc"]} None) in
  let w' := run suffix_glob manifest_scripts
              [Deliver (TextDocumentChanged
                          (mkTextDocument "/ws/package.json" "json" "file"))]
              (deliver suffix_glob (FileChanged "/ws/package.json" "tsc -p .") w) in
  tasksCache w !! "/ws"
  = Some [mkTask npm "build" "/ws/package.json" "tsc" ((0, 0), (0, 0))]
  ∧ (getTasks manifest_scripts "/ws" w').1
    = Ok [mkTask npm "build" "/ws/package.json" "tsc -p ." ((0, 0), (0, 0))]
  ∧ FxParse "/ws" ∈ trace (getTasks manifest_scripts "/ws" w').2.
Proof.
  intros w w'. split; [reflexivity|].
  destruct (invalidation_forces_parsing suffix_glob manifest_scripts
              ["/ws"] ∅ {["/ws/package.json" := "tsc"]} [QueryTasks "/ws"]
              (FileChanged "/ws/package.json" "tsc -p .")
              [Deliver (TextDocumentChanged
                          (mkTextDocument "/ws/package.json" "json" "file"))]
              "/ws") as [Htasks _].
  destruct Htasks as [_ Heq].
  - exists "**/package.json". split; [|reflexivity].
    vm_compute. apply list_elem_of_further, list_elem_of_here.
  - intros Hin. apply list_elem_of_singleton in Hin. discriminate.
  - fold w w' in Heq. rewrite Heq. simpl. split; [reflexivity|].
    apply elem_of_app. right. apply list_elem_of_here.
Defined.

(** The host throws at its sixth call, after the command was registered:
    activation fails, and the command still shows the channel. *)
Lemma showOutput_command_ready_example :
  let w := run suffix_glob manifest_scripts []
             (activated (Some ["/ws"]) ∅ ∅ (Some (5, "boom"))) in
  CbShowOutput ∈ subscribers (SrcCommand "taskView.showOutput") w
  ∧ CbShowOutput = CbShowOutput
  ∧ logOutputChannel w = Some "Task View"
  ∧ run_callback CbShowOutput PNone w = outputChannel_show "Task View" w.
Proof.
  assert (CbShowOutput
          ∈ subscribers (SrcCommand "taskView.showOutput")
              (run suffix_glob manifest_scripts []
                 (activated (Some ["/ws"]) ∅ ∅ (Some (5, "boom"))))) as Hin.
  { vm_compute. apply list_elem_of_here. }
  split; [exact Hin|].
  exact (showOutput_command_ready suffix_glob manifest_scripts
           (Some ["/ws"]) ∅ ∅ (Some (5, "boom")) [] CbShowOutput PNone Hin).
Defined.

(** In a workspace the task provider, the command and the listeners of the
    watchers are registered. *)
Lemma registrations_never_tracked_example :
  let w := run suffix_glob manifest_scripts []
             (activated (Some ["/ws"]) ∅ ∅ None) in
  RegTaskProvider "ant" NewAntTaskProvider ∈ registrations w
  ∧ CbShowOutput ∈ subscribers (SrcCommand "taskView.showOutput") w
  ∧ ∀ watcher k, watcher < 3 →
      CbInvalidateScriptCaches ∈ subscribers (SrcWatcher watcher k) w.
Proof.
  exact (proj2 (registrations_never_tracked suffix_glob manifest_scripts
                  (Some ["/ws"]) ∅ ∅ None []) eq_refl eq_refl).
Defined.

(** * Where the code differs from what was claimed of it *)

(** C3 as stated fails.  Activated without a workspace, the extension has
    no tree data provider; a change that affects [taskView.exclude] empties
    the tasks cache and refreshes nothing. *)
Lemma configuration_change_without_tree_view :
  let w := activated None ∅ ∅ None in
  let e := mkConfigurationChangeEvent
             (λ section, String.prefix section "taskView.exclude") in
  let s' : gmap string CfgVal :=
    {["taskView.exclude" := CStrings ["**/node_modules/**"]]} in
  let w' := deliver suffix_glob (ConfigurationChanged s' e) w in
  ¬ ((tasksCache w' = ∅ ∧ FxRefreshTree ∈ trace w')
     ↔ affectsConfiguration e "taskView.exclude" = true).
Proof.
  intros w e s' w' [_ H]. destruct (H eq_refl) as [_ Hin].
  remember (trace w') as effects eqn:Heq. vm_compute in Heq. subst effects.
  rewrite !elem_of_cons, elem_of_nil in Hin.
  repeat (destruct Hin as [Hin|Hin]; [discriminate|]). exact Hin.
Qed.

(** C4 as stated fails.  An empty array of workspace folders is zero
    folders, and it passes the test of the three registration functions:
    everything is registered. *)
Lemma empty_folder_list_registers :
  let w0 := initial (Some []) ∅ ∅ None in
  let w := activated (Some []) ∅ ∅ None in
  length (default [] (workspaceFolders w0)) = 0
  ∧ (registerAntTaskProvider w0).1 = Ok (Some (DispTaskProvider "ant"))
  ∧ (registerExplorer w0).1 = Ok (Some NewTaskTreeDataProvider)
  ∧ (registerHoverProvider w0).1 = Ok (Some NewNpmScriptHoverProvider)
  ∧ watchers w
    = ["**/[Bb]uild.xml"; "**/package.json"; "**/.vscode/tasks.json"]
  ∧ registrations w
    = [RegTaskProvider "ant" NewAntTaskProvider;
       RegTreeView "taskView" NewTaskTreeDataProvider true;
       RegHoverProvider npmSelector NewNpmScriptHoverProvider;
       RegJSONProviders]
  ∧ subscribers SrcWorkspaceFolders w = [CbInvalidateScriptCaches].
Proof. repeat split. Qed.
